(** * LGE ThinQ climate platform: a shallow embedding of [climate.py]

    The development follows
    [custom_components/smartthinq_sensors/climate.py]:

    - [PyDict]: Python dictionaries as insertion-ordered association lists;
    - [AC]: the air-conditioner entity [LGEACClimate], its mode tables, its
      properties and its command coroutines, in a small monad that threads the
      entity's attributes, collects the calls made on the device and on the
      coordinator, and propagates exceptions;
    - [Refrigerator]: the [target_temperature] property of
      [LGERefrigeratorClimate], with Python's [int] conversion.

    Definitions come first, the theorems about them after. *)

From Stdlib Require Import String Ascii List ZArith Bool Lia.
Import ListNotations.
Local Open Scope string_scope.

(** ** Python equality on keys *)

(** [==] on the key types the module uses ([str] and [HVACMode]). *)
Class PyEq (A : Type) := py_eqb : A -> A -> bool.

(** [py_eqb] decides Leibniz equality. *)
Class PyEqOk (A : Type) `{PyEq A} :=
  py_eqb_eq : forall a b : A, py_eqb a b = true <-> a = b.

#[export] Instance string_PyEq : PyEq string := String.eqb.

(** [x in l] for a Python list [l]. *)
Definition list_contains {A : Type} `{PyEq A} (l : list A) (x : A) : bool :=
  existsb (fun y => py_eqb y x) l.

(** ** Dictionaries

    A [dict] keeps its items in insertion order ([values()] and [items()]
    are read in that order by the module), and an assignment to a key that
    is already present replaces the value where the key stands. *)
Module PyDict.

Section Dict.
Context {K V : Type} `{PyEq K}.

(** [d.get(k)] *)
Fixpoint get (d : list (K * V)) (k : K) : option V :=
  match d with
  | [] => None
  | (k', v) :: r => if py_eqb k' k then Some v else get r k
  end.

(** [d[k] = v] *)
Fixpoint set (d : list (K * V)) (k : K) (v : V) : list (K * V) :=
  match d with
  | [] => [(k, v)]
  | (k', v') :: r =>
      if py_eqb k' k then (k', v) :: r else (k', v') :: set r k v
  end.

(** [k in d] *)
Definition contains (d : list (K * V)) (k : K) : bool :=
  match get d k with Some _ => true | None => false end.

(** [d.get(k, default)] *)
Definition get_default (d : list (K * V)) (k : K) (default : V) : V :=
  match get d k with Some v => v | None => default end.

(** [d.keys()], [d.values()] *)
Definition keys (d : list (K * V)) : list K := map fst d.
Definition values (d : list (K * V)) : list V := map snd d.

(** A dictionary display or comprehension: the items are assigned one
    after the other, from the empty dictionary. *)
Definition of_items (l : list (K * V)) : list (K * V) :=
  fold_left (fun acc kv => set acc (fst kv) (snd kv)) l [].

(** [bool(d)] *)
Definition truthy (d : list (K * V)) : bool :=
  match d with [] => false | _ :: _ => true end.
End Dict.

(** [{v: k for k, v in d.items()}] *)
Definition invert {K V : Type} `{PyEq V} (d : list (K * V)) : list (V * K) :=
  of_items (map (fun kv => (snd kv, fst kv)) d).

End PyDict.

(** [dict[K, V]] *)
Abbreviation dict K V := (list (K * V)) (only parsing).

(** ** Exceptions and outcomes *)

(** The calls this module makes on the device object. *)
Inductive DevCmd : Type :=
| power (on : bool)
| set_op_mode (code : string)
| set_vertical_swing_mode (mode : string)
| set_horizontal_swing_mode (mode : string).

(** The exceptions that can leave the modelled code.  [DeviceError] stands
    for whatever the device layer raises when a command fails;
    [AccessorError] for whatever a descriptor accessor raises. *)
Inductive Exn : Type :=
| ValueError (msg : string)
| NotImplementedError
| KeyError
| TypeError
| OverflowError
| DeviceError (cmd : DevCmd)
| AccessorError (what : string).

Inductive Outcome (A : Type) : Type :=
| Return (a : A)
| Raise (e : Exn).
Arguments Return {A} a.
Arguments Raise {A} e.

(** ** The platform's vocabulary *)

(** [homeassistant.components.climate.const.HVACMode] *)
Inductive HVACMode : Type :=
| OFF | HEAT | COOL | HEAT_COOL | AUTO | DRY | FAN_ONLY.

Definition HVACMode_eqb (a b : HVACMode) : bool :=
  match a, b with
  | OFF, OFF | HEAT, HEAT | COOL, COOL | HEAT_COOL, HEAT_COOL
  | AUTO, AUTO | DRY, DRY | FAN_ONLY, FAN_ONLY => true
  | _, _ => false
  end.

#[export] Instance HVACMode_PyEq : PyEq HVACMode := HVACMode_eqb.

(** The value of the string enumeration, which is what an f-string prints. *)
Definition HVACMode_value (m : HVACMode) : string :=
  match m with
  | OFF => "off" | HEAT => "heat" | COOL => "cool"
  | HEAT_COOL => "heat_cool" | AUTO => "auto" | DRY => "dry"
  | FAN_ONLY => "fan_only"
  end.

Definition PRESET_ECO : string := "eco".
Definition PRESET_NONE : string := "none".

Module AC.

(** *** Constants of the module *)

Definition HVAC_MODE_NONE : string := "--".

(** [HVAC_MODE_LOOKUP]; the keys are the [name]s of the [ACMode] members. *)
Definition HVAC_MODE_LOOKUP : dict string HVACMode :=
  PyDict.of_items
    [ ("AI", AUTO);
      ("HEAT", HEAT);
      ("DRY", DRY);
      ("COOL", COOL);
      ("AIRCLEAN", FAN_ONLY);
      ("ACO", HEAT_COOL) ].

(** An entry of [PRESET_MODE_LOOKUP]: [{"preset": ..., "hvac": ...}]. *)
Record PresetEntry : Type := { preset : string; hvac : HVACMode }.

Definition PRESET_MODE_LOOKUP : dict string PresetEntry :=
  PyDict.of_items
    [ ("ENERGY_SAVING", {| preset := PRESET_ECO; hvac := COOL |});
      ("ENERGY_SAVER", {| preset := PRESET_ECO; hvac := COOL |}) ].

(** *** The device, its state and the entity *)

(** What [self._device] (an [AirConditionerDevice]) exposes and never
    changes. *)
Record Device : Type := {
  op_modes : list string;
  vertical_swing_modes : list string;
  horizontal_swing_modes : list string
}.

(** [self._api.state], as read at the time of a call. *)
Record Snapshot : Type := {
  is_on : bool;
  operation_mode : option string;
  vertical_swing_mode : option string;
  horizontal_swing_mode : option string
}.

(** The attributes of an [LGEACClimate] instance. *)
Record Adapter : Type := {
  _use_h_mode : bool;
  _attr_swing_modes : option (list string);
  _attr_swing_horizontal_modes : option (list string);
  _attr_preset_mode : option string;
  _hvac_mode_lookup : option (dict string HVACMode);
  _preset_mode_lookup : option (dict string string)
}.

Definition with_attr_preset_mode (a : Adapter) (p : option string) : Adapter :=
  {| _use_h_mode := _use_h_mode a;
     _attr_swing_modes := _attr_swing_modes a;
     _attr_swing_horizontal_modes := _attr_swing_horizontal_modes a;
     _attr_preset_mode := p;
     _hvac_mode_lookup := _hvac_mode_lookup a;
     _preset_mode_lookup := _preset_mode_lookup a |}.

Definition with_hvac_mode_lookup (a : Adapter) (t : dict string HVACMode)
  : Adapter :=
  {| _use_h_mode := _use_h_mode a;
     _attr_swing_modes := _attr_swing_modes a;
     _attr_swing_horizontal_modes := _attr_swing_horizontal_modes a;
     _attr_preset_mode := _attr_preset_mode a;
     _hvac_mode_lookup := Some t;
     _preset_mode_lookup := _preset_mode_lookup a |}.

Definition with_preset_mode_lookup (a : Adapter) (t : dict string string)
  : Adapter :=
  {| _use_h_mode := _use_h_mode a;
     _attr_swing_modes := _attr_swing_modes a;
     _attr_swing_horizontal_modes := _attr_swing_horizontal_modes a;
     _attr_preset_mode := _attr_preset_mode a;
     _hvac_mode_lookup := _hvac_mode_lookup a;
     _preset_mode_lookup := Some t |}.

(** [x or None] for a list [x]. *)
Definition or_None (l : list string) : option (list string) :=
  match l with [] => None | _ :: _ => Some l end.

(** [bool(x)] for an optional list and for an optional string. *)
Definition truthy_list (l : option (list string)) : bool :=
  match l with Some (_ :: _) => true | _ => false end.

Definition truthy_str (s : option string) : bool :=
  match s with Some (String _ _) => true | _ => false end.

(** [LGEACClimate.__init__], for the attributes above. *)
Definition __init__ (dev : Device) : Adapter :=
  let swing_modes := or_None (vertical_swing_modes dev) in
  let swing_horizontal_modes := or_None (horizontal_swing_modes dev) in
  let remap := negb (truthy_list swing_modes)
               && truthy_list swing_horizontal_modes in
  {| _use_h_mode := remap;
     _attr_swing_modes :=
       if remap then swing_horizontal_modes else swing_modes;
     _attr_swing_horizontal_modes :=
       if remap then None else swing_horizontal_modes;
     _attr_preset_mode := None;
     _hvac_mode_lookup := None;
     _preset_mode_lookup := None |}.


(** *** Effects

    A property or a coroutine of the entity runs against an environment
    (the device object, the state snapshot it reads and which device
    commands fail), may change the entity's attributes, makes calls on the
    device and on the coordinator, and either returns or raises.  Within one
    call the module reads [self._api.state] only before its first device
    command, so one snapshot per call is what the code observes. *)

Inductive Event : Type :=
| Cmd (c : DevCmd)          (* [await self._device.<c>] *)
| SetUpdated.               (* [self._api.async_set_updated()] *)

Record Env : Type := {
  device : Device;
  state : Snapshot;
  command_fails : DevCmd -> bool
}.

Definition M (A : Type) : Type :=
  Env -> Adapter -> Outcome A * Adapter * list Event.

Definition ret {A : Type} (a : A) : M A :=
  fun _ self => (Return a, self, []).

Definition raise {A : Type} (e : Exn) : M A :=
  fun _ self => (Raise e, self, []).

Definition bind {A B : Type} (m : M A) (k : A -> M B) : M B :=
  fun env self =>
    match m env self with
    | (Return a, self', evs) =>
        match k a env self' with
        | (r, self'', evs') => (r, self'', (evs ++ evs')%list)
        end
    | (Raise e, self', evs) => (Raise e, self', evs)
    end.

Declare Scope py_scope.
Delimit Scope py_scope with py.
Notation "x <- m ;; k" := (bind m (fun x => k))
  (at level 61, m at next level, right associativity) : py_scope.
Notation "m ;; k" := (bind m (fun _ => k))
  (at level 61, right associativity) : py_scope.
Local Open Scope py_scope.

Definition get_self : M Adapter := fun _ self => (Return self, self, []).
Definition put_self (self : Adapter) : M unit :=
  fun _ _ => (Return tt, self, []).
Definition ask : M Env := fun env self => (Return env, self, []).

(** [await self._device.<c>(...)]: the command is issued, and the device
    layer may raise. *)
Definition device_call (c : DevCmd) : M unit :=
  fun env self =>
    (if command_fails env c then Raise (DeviceError c) else Return tt,
     self, [Cmd c]).

Definition async_set_updated : M unit :=
  fun _ self => (Return tt, self, [SetUpdated]).

(** [d[k]] *)
Definition subscript {K V : Type} `{PyEq K} (d : dict K V) (k : K) : M V :=
  match PyDict.get d k with
  | Some v => ret v
  | None => raise KeyError
  end.

(** [if self._attr_preset_mode: self._attr_preset_mode = PRESET_NONE] *)
Definition clear_preset : M unit :=
  self <- get_self ;;
  if truthy_str (_attr_preset_mode self)
  then put_self (with_attr_preset_mode self (Some PRESET_NONE))
  else ret tt.

(** *** The mode tables *)

(** The table [_available_hvac_modes] builds when none is cached. *)
Definition build_hvac_mode_lookup (S : list string) : dict string HVACMode :=
  let lookup :=
    PyDict.of_items
      (filter (fun kv => list_contains S (fst kv)) HVAC_MODE_LOOKUP) in
  if negb (PyDict.truthy lookup) then [(HVAC_MODE_NONE, AUTO)] else lookup.

Definition _available_hvac_modes : M (dict string HVACMode) :=
  self <- get_self ;;
  match _hvac_mode_lookup self with
  | None =>
      env <- ask ;;
      let lookup := build_hvac_mode_lookup (op_modes (device env)) in
      put_self (with_hvac_mode_lookup self lookup) ;;
      ret lookup
  | Some lookup => ret lookup
  end.

(** The loop of [_available_preset_modes]: [modes], from preset label to
    vendor code. *)
Definition build_preset_modes (S : list string) (hvac_modes : list HVACMode)
  : dict string string :=
  fold_left
    (fun modes (item : string * PresetEntry) =>
       let (key, mode) := item in
       if negb (list_contains S key) then modes
       else if negb (list_contains hvac_modes (hvac mode)) then modes
       else PyDict.set modes (preset mode) key)
    PRESET_MODE_LOOKUP [].

Definition _available_preset_modes : M (dict string string) :=
  self <- get_self ;;
  match _preset_mode_lookup self with
  | None =>
      lookup <- _available_hvac_modes ;;
      let hvac_modes := PyDict.values lookup in
      env <- ask ;;
      let modes := build_preset_modes (op_modes (device env)) hvac_modes in
      (if PyDict.truthy modes
       then self <- get_self ;;
            put_self (with_attr_preset_mode self (Some PRESET_NONE))
       else ret tt) ;;
      self <- get_self ;;
      put_self (with_preset_mode_lookup self (PyDict.invert modes)) ;;
      ret (PyDict.invert modes)
  | Some presets => ret presets
  end.

(** *** Properties and coroutines of [LGEACClimate] *)

Definition hvac_mode : M HVACMode :=
  env <- ask ;;
  match is_on (state env), operation_mode (state env) with
  | true, Some op_mode =>
      presets <- _available_preset_modes ;;
      if PyDict.contains presets op_mode then
        p <- subscript presets op_mode ;;
        self <- get_self ;;
        put_self (with_attr_preset_mode self (Some p)) ;;
        entry <- subscript PRESET_MODE_LOOKUP op_mode ;;
        ret (hvac entry)
      else
        clear_preset ;;
        modes <- _available_hvac_modes ;;
        ret (PyDict.get_default modes op_mode AUTO)
  | _, _ =>
      clear_preset ;;
      ret OFF
  end.

Definition async_set_hvac_mode (hvac_mode : HVACMode) : M unit :=
  if py_eqb hvac_mode OFF then
    device_call (power false) ;;
    async_set_updated
  else
    modes <- _available_hvac_modes ;;
    let reverse_lookup := PyDict.invert modes in
    match PyDict.get reverse_lookup hvac_mode with
    | None =>
        raise (ValueError
                 ("Invalid hvac_mode [" ++ HVACMode_value hvac_mode ++ "]"))
    | Some operation_mode =>
        env <- ask ;;
        (if negb (is_on (state env)) then device_call (power true)
         else ret tt) ;;
        (if negb (py_eqb operation_mode HVAC_MODE_NONE)
         then device_call (set_op_mode operation_mode)
         else ret tt) ;;
        async_set_updated
    end.

Definition hvac_modes : M (list HVACMode) :=
  modes <- _available_hvac_modes ;;
  ret (OFF :: PyDict.values modes).

(** [curr_preset != PRESET_NONE], where [curr_preset] may be [None]. *)
Definition is_not_PRESET_NONE (p : option string) : bool :=
  match p with
  | Some s => negb (py_eqb s PRESET_NONE)
  | None => true
  end.

Definition async_set_preset_mode (preset_mode : string) : M unit :=
  modes <- _available_preset_modes ;;
  if negb (PyDict.truthy modes) then raise NotImplementedError
  else
    let reverse_lookup := PyDict.invert modes in
    if py_eqb preset_mode PRESET_NONE then
      self <- get_self ;;
      env <- ask ;;
      let curr_preset := _attr_preset_mode self in
      if is_not_PRESET_NONE curr_preset && is_on (state env) then
        op_mode <- match curr_preset with
                   | Some p => subscript reverse_lookup p
                   | None => raise KeyError
                   end ;;
        entry <- subscript PRESET_MODE_LOOKUP op_mode ;;
        async_set_hvac_mode (hvac entry)
      else ret tt
    else
      match PyDict.get reverse_lookup preset_mode with
      | None =>
          raise (ValueError ("Invalid preset_mode [" ++ preset_mode ++ "]"))
      | Some operation_mode =>
          env <- ask ;;
          (if negb (is_on (state env)) then device_call (power true)
           else ret tt) ;;
          device_call (set_op_mode operation_mode) ;;
          async_set_updated
      end.

Definition preset_modes : M (option (list string)) :=
  modes <- _available_preset_modes ;;
  if negb (PyDict.truthy modes) then ret None
  else ret (Some (PRESET_NONE :: PyDict.values modes)).

(** [ClimateEntity.swing_modes] and [ClimateEntity.swing_horizontal_modes]
    return the [_attr_] values set by [__init__]. *)
Definition swing_modes : M (option (list string)) :=
  self <- get_self ;; ret (_attr_swing_modes self).

Definition swing_horizontal_modes : M (option (list string)) :=
  self <- get_self ;; ret (_attr_swing_horizontal_modes self).

Definition swing_mode : M (option string) :=
  self <- get_self ;;
  env <- ask ;;
  if _use_h_mode self then ret (horizontal_swing_mode (state env))
  else ret (vertical_swing_mode (state env)).

(** [x or []] *)
Definition or_empty (l : option (list string)) : list string :=
  match l with Some l => l | None => [] end.

(** [mode != current], where [current] may be [None]. *)
Definition differs (mode : string) (current : option string) : bool :=
  match current with
  | Some c => negb (py_eqb mode c)
  | None => true
  end.

Definition async_set_swing_mode (mode : string) : M unit :=
  modes <- swing_modes ;;
  if negb (list_contains (or_empty modes) mode) then
    raise (ValueError ("Invalid swing_mode [" ++ mode ++ "]."))
  else
    current <- swing_mode ;;
    if differs mode current then
      self <- get_self ;;
      (if _use_h_mode self
       then device_call (set_horizontal_swing_mode mode)
       else device_call (set_vertical_swing_mode mode)) ;;
      async_set_updated
    else ret tt.

Definition swing_horizontal_mode : M (option string) :=
  env <- ask ;; ret (horizontal_swing_mode (state env)).

Definition async_set_swing_horizontal_mode (mode : string) : M unit :=
  modes <- swing_horizontal_modes ;;
  if negb (list_contains (or_empty modes) mode) then
    raise (ValueError ("Invalid horizontal swing_mode [" ++ mode ++ "]."))
  else
    current <- swing_horizontal_mode ;;
    if differs mode current then
      device_call (set_horizontal_swing_mode mode) ;;
      async_set_updated
    else ret tt.

Definition async_turn_on : M unit :=
  device_call (power true) ;; async_set_updated.

Definition async_turn_off : M unit :=
  device_call (power false) ;; async_set_updated.

(** The device commands among the calls of a run. *)
Fixpoint commands (evs : list Event) : list DevCmd :=
  match evs with
  | [] => []
  | Cmd c :: r => c :: commands r
  | SetUpdated :: r => commands r
  end.

(** Whether the coordinator was marked updated. *)
Definition marked_updated (evs : list Event) : bool :=
  existsb (fun e => match e with SetUpdated => true | Cmd _ => false end) evs.

(** *** Tables of a device, cached tables, reachable entities *)

(** [HVAC_MODE_LOOKUP] restricted to the keys in [S]. *)
Definition restriction (S : list string) : dict string HVACMode :=
  filter (fun kv => list_contains S (fst kv)) HVAC_MODE_LOOKUP.

(** The preset table [_available_preset_modes] builds when none is cached:
    from vendor code to preset label. *)
Definition build_preset_mode_lookup (S : list string) : dict string string :=
  PyDict.invert
    (build_preset_modes S (PyDict.values (build_hvac_mode_lookup S))).

(** Each cache attribute is still [None] or holds the table of the device. *)
Definition caches_ok (dev : Device) (self : Adapter) : Prop :=
  (_hvac_mode_lookup self = None
   \/ _hvac_mode_lookup self = Some (build_hvac_mode_lookup (op_modes dev)))
  /\ (_preset_mode_lookup self = None
      \/ _preset_mode_lookup self
         = Some (build_preset_mode_lookup (op_modes dev))).

(** The entity after a run, whatever its outcome. *)
Definition after {A : Type} (m : M A) (env : Env) (self : Adapter) : Adapter :=
  snd (fst (m env self)).

(** A run that leaves the cached tables sound. *)
Definition keeps_caches {A : Type} (m : M A) : Prop :=
  forall env self,
    caches_ok (device env) self -> caches_ok (device env) (after m env self).

(** What the platform can ask of the entity. *)
Inductive Call : Type :=
| read_hvac_mode
| read_hvac_modes
| read_preset_modes
| read_swing_mode
| read_swing_horizontal_mode
| set_hvac_mode (mode : HVACMode)
| set_preset_mode (label : string)
| set_swing_mode (mode : string)
| set_swing_horizontal_mode (mode : string)
| turn_on
| turn_off.

Definition step (c : Call) : Env -> Adapter -> Adapter :=
  match c with
  | read_hvac_mode => after hvac_mode
  | read_hvac_modes => after hvac_modes
  | read_preset_modes => after preset_modes
  | read_swing_mode => after swing_mode
  | read_swing_horizontal_mode => after swing_horizontal_mode
  | set_hvac_mode m => after (async_set_hvac_mode m)
  | set_preset_mode l => after (async_set_preset_mode l)
  | set_swing_mode v => after (async_set_swing_mode v)
  | set_swing_horizontal_mode v => after (async_set_swing_horizontal_mode v)
  | turn_on => after async_turn_on
  | turn_off => after async_turn_off
  end.

(** The entities one can meet: built by [__init__] for the device, then
    used through any calls, under any snapshots and command failures. *)
Inductive reachable (dev : Device) : Adapter -> Prop :=
| reachable_init : reachable dev (__init__ dev)
| reachable_step (self : Adapter) (c : Call) (env : Env) :
    reachable dev self -> device env = dev ->
    reachable dev (step c env self).

(** The operating mode the commands of a run ask for, if any. *)
Fixpoint issued_op_mode (evs : list Event) : option string :=
  match evs with
  | [] => None
  | Cmd (set_op_mode code) :: r =>
      match issued_op_mode r with
      | Some later => Some later
      | None => Some code
      end
  | _ :: r => issued_op_mode r
  end.

(** A snapshot taken after a run that leaves the device on reflects it:
    the device is on, in the operating mode the run asked for; when the run
    asked for none, in whatever mode it reports. *)
Definition reflects (evs : list Event) (s : Snapshot) : Prop :=
  is_on s = true
  /\ match issued_op_mode evs with
     | Some code => operation_mode s = Some code
     | None => exists code, operation_mode s = Some code
     end.

End AC.

Module Refrigerator.

(** *** Python values a temperature accessor can produce

    [temp_fn] is declared [Callable[[Any], float | str]]; the property also
    tests its result against [None].  A finite float is the dyadic number
    [m * 2^e]. *)
Inductive PyFloat : Type :=
| Finite (m e : Z)
| NaN
| Inf (negative : bool).

Inductive PyValue : Type :=
| PyNone
| PyInt (z : Z)
| PyFloatV (f : PyFloat)
| PyStr (s : string).

(** What [int(x)] does. *)
Inductive IntResult : Type :=
| IntOk (z : Z)
| IntValueError
| IntTypeError
| IntOverflowError.

(** [int] of a float truncates towards zero; NaN is a [ValueError] and an
    infinity an [OverflowError]. *)
Definition int_of_float (f : PyFloat) : IntResult :=
  match f with
  | Finite m e =>
      IntOk (if (0 <=? e)%Z then (m * 2 ^ e)%Z else Z.quot m (2 ^ (- e)))
  | NaN => IntValueError
  | Inf _ => IntOverflowError
  end.

(** [int] of a string over ASCII, base 10: surrounding white space, an
    optional sign, then digits that single underscores may separate.  More
    than [int_max_str_digits] digits are refused (the interpreter's
    default). *)
Definition Py_ISSPACE (c : ascii) : bool :=
  let n := nat_of_ascii c in
  ((9 <=? n) && (n <=? 13))%nat || (n =? 32)%nat.

Definition digit_value (c : ascii) : option Z :=
  let n := nat_of_ascii c in
  if ((48 <=? n) && (n <=? 57))%nat then Some (Z.of_nat (n - 48)) else None.

Definition is_underscore (c : ascii) : bool := (nat_of_ascii c =? 95)%nat.

Definition int_max_str_digits : Z := 4300.

Fixpoint skip_spaces (s : string) : string :=
  match s with
  | String c r => if Py_ISSPACE c then skip_spaces r else s
  | EmptyString => s
  end.

(** Scans digits and underscores; gives the number of digits, their value
    and the rest, or [None] on a doubled or trailing underscore. *)
Fixpoint scan_digits (s : string) (prev_underscore : bool) (digits acc : Z)
  : option (Z * Z * string) :=
  match s with
  | EmptyString => if prev_underscore then None else Some (digits, acc, s)
  | String c r =>
      if is_underscore c then
        if prev_underscore then None else scan_digits r true digits acc
      else
        match digit_value c with
        | Some d => scan_digits r false (digits + 1)%Z (10 * acc + d)%Z
        | None => if prev_underscore then None else Some (digits, acc, s)
        end
  end.

(** The digits, after the sign. *)
Definition int_of_digits (negative : bool) (s : string) : IntResult :=
  match s with
  | String c _ =>
      if is_underscore c then IntValueError
      else
        match scan_digits s false 0 0 with
        | None => IntValueError
        | Some (digits, v, rest) =>
            if (digits =? 0)%Z then IntValueError
            else if (int_max_str_digits <? digits)%Z then IntValueError
            else
              match skip_spaces rest with
              | EmptyString => IntOk (if negative then (- v)%Z else v)
              | String _ _ => IntValueError
              end
        end
  | EmptyString => IntValueError
  end.

Definition int_of_str (s : string) : IntResult :=
  let s1 := skip_spaces s in
  match s1 with
  | String c r =>
      if (nat_of_ascii c =? 43)%nat then int_of_digits false r
      else if (nat_of_ascii c =? 45)%nat then int_of_digits true r
      else int_of_digits false s1
  | EmptyString => int_of_digits false s1
  end.

(** Whether a string has a decimal digit at all. *)
Fixpoint has_digit (s : string) : bool :=
  match s with
  | EmptyString => false
  | String c r =>
      match digit_value c with
      | Some _ => true
      | None => has_digit r
      end
  end.

(** [z] is [m * 2^e] rounded towards zero. *)
Definition truncates (m e z : Z) : Prop :=
  if (0 <=? e)%Z then z = (m * 2 ^ e)%Z
  else
    (2 ^ (- e) * Z.abs z <= Z.abs m < 2 ^ (- e) * (Z.abs z + 1))%Z
    /\ (0 <= m -> 0 <= z)%Z
    /\ (m <= 0 -> z <= 0)%Z.

Definition py_int (v : PyValue) : IntResult :=
  match v with
  | PyNone => IntTypeError
  | PyInt z => IntOk z
  | PyFloatV f => int_of_float f
  | PyStr s => int_of_str s
  end.

Section Climate.
(** [LGERefrigeratorDevice], the wrapper the accessors read. *)
Variable WrapDevice : Type.

(** [ThinQRefClimateEntityDescription], for what the property uses: an
    accessor returns a value or raises. *)
Record EntityDescription : Type := {
  key : string;
  name : string;
  temp_fn : WrapDevice -> Outcome PyValue
}.

(** [LGERefrigeratorClimate.target_temperature]; [None] is the platform's
    unknown value. *)
Definition target_temperature
  (entity_description : EntityDescription) (_wrap_device : WrapDevice)
  : Outcome (option Z) :=
  match temp_fn entity_description _wrap_device with
  | Raise e => Raise e
  | Return PyNone => Return None
  | Return target_temp =>
      match py_int target_temp with
      | IntOk z => Return (Some z)
      | IntValueError => Return None
      | IntTypeError => Raise TypeError
      | IntOverflowError => Raise OverflowError
      end
  end.
End Climate.

Arguments key {WrapDevice} _.
Arguments name {WrapDevice} _.
Arguments temp_fn {WrapDevice} _ _.
Arguments target_temperature {WrapDevice} _ _.

End Refrigerator.

(** ** A device to run the model on

    An air conditioner with operating modes COOL, HEAT and ENERGY_SAVER,
    horizontal swing only, that accepts every command. *)
Module Scenario.
Import AC.

Definition device0 : Device :=
  {| op_modes := ["COOL"; "HEAT"; "ENERGY_SAVER"];
     vertical_swing_modes := [];
     horizontal_swing_modes := ["LEFT"; "RIGHT"] |}.

Definition snapshot (on : bool) (mode : option string) : Snapshot :=
  {| is_on := on;
     operation_mode := mode;
     vertical_swing_mode := None;
     horizontal_swing_mode := Some "LEFT" |}.

Definition env0 (s : Snapshot) : Env :=
  {| device := device0; state := s; command_fails := fun _ => false |}.

(** A device with vertical and horizontal swing, and both energy-saving
    operating modes. *)
Definition device2 : Device :=
  {| op_modes := ["COOL"; "ENERGY_SAVING"; "ENERGY_SAVER"];
     vertical_swing_modes := ["UP"; "DOWN"];
     horizontal_swing_modes := ["LEFT"; "RIGHT"] |}.

Definition env2 : Env :=
  {| device := device2;
     state := {| is_on := true;
                 operation_mode := Some "COOL";
                 vertical_swing_mode := Some "UP";
                 horizontal_swing_mode := Some "LEFT" |};
     command_fails := fun _ => false |}.

(** A device none of whose operating modes is in [HVAC_MODE_LOOKUP]. *)
Definition device1 : Device :=
  {| op_modes := ["FAN"];
     vertical_swing_modes := ["UP"; "DOWN"];
     horizontal_swing_modes := [] |}.

Definition env1 (s : Snapshot) : Env :=
  {| device := device1; state := s; command_fails := fun _ => false |}.

(** A compartment whose accessor raises, and one whose accessor returns the
    given value. *)
Definition failing_description : Refrigerator.EntityDescription unit :=
  {| Refrigerator.key := "fridge";
     Refrigerator.name := "Fridge";
     Refrigerator.temp_fn := fun _ => Raise (AccessorError "temp_fridge") |}.

Definition description_of (v : Refrigerator.PyValue)
  : Refrigerator.EntityDescription unit :=
  {| Refrigerator.key := "fridge";
     Refrigerator.name := "Fridge";
     Refrigerator.temp_fn := fun _ => Return v |}.

End Scenario.

(** ** More of the air-conditioner entity: runs and invariants *)

Module ACMore.
Import AC.
Local Open Scope py_scope.

(** [ClimateEntity.preset_mode] returns the [_attr_] value. *)
Definition preset_mode : M (option string) :=
  self <- get_self ;; ret (_attr_preset_mode self).

(** What a coroutine does with a list of device commands it awaits one
    after the other before it marks the coordinator updated: the first
    command that fails ends the run with the device's exception. *)
Fixpoint issue (fails : DevCmd -> bool) (cs : list DevCmd)
  : Outcome unit * list Event :=
  match cs with
  | [] => (Return tt, [SetUpdated])
  | c :: r =>
      if fails c then (Raise (DeviceError c), [Cmd c])
      else let (o, evs) := issue fails r in (o, Cmd c :: evs)
  end.

(** The active preset agrees with the cached preset table: unset as long as
    no table, or an empty one, is cached; otherwise ["none"] or one of the
    table's labels. *)
Definition preset_attr_ok (self : Adapter) : Prop :=
  match _preset_mode_lookup self with
  | Some ((_ :: _) as presets) =>
      exists label,
        _attr_preset_mode self = Some label
        /\ (label = PRESET_NONE \/ In label (PyDict.values presets))
  | _ => _attr_preset_mode self = None
  end.

(** The attributes [__init__] sets from the device's swing lists. *)
Definition swing_slots (self : Adapter)
  : bool * option (list string) * option (list string) :=
  (_use_h_mode self, _attr_swing_modes self, _attr_swing_horizontal_modes self).

(** A predicate on the entities of a device that every run of [m] keeps. *)
Definition keeps_inv {A : Type} (I : Device -> Adapter -> Prop) (m : M A)
  : Prop :=
  forall env self, I (device env) self -> I (device env) (after m env self).

(** The cached tables are sound and the active preset agrees with them. *)
Definition entity_ok (dev : Device) (self : Adapter) : Prop :=
  caches_ok dev self /\ preset_attr_ok self.

(** The swing attributes are those [__init__] gave the entity. *)
Definition slots_ok (dev : Device) (self : Adapter) : Prop :=
  swing_slots self = swing_slots (__init__ dev).

(** [if self._attr_preset_mode: self._attr_preset_mode = PRESET_NONE], as
    a function on the entity. *)
Definition cleared (self : Adapter) : Adapter :=
  if truthy_str (_attr_preset_mode self)
  then with_attr_preset_mode self (Some PRESET_NONE) else self.

(** What holds of the outcome, the entity and the calls of a run. *)
Definition post {A : Type} (m : M A) (env : Env) (self : Adapter)
    (Q : Outcome A -> Adapter -> list Event -> Prop) : Prop :=
  match m env self with
  | (r, self', evs) => Q r self' evs
  end.

(** A command that only names what the device lists: an operating mode
    among its [op_modes], a swing mode among the swing modes of that axis. *)
Definition cmd_allowed (dev : Device) (c : DevCmd) : Prop :=
  match c with
  | power _ => True
  | set_op_mode code => In code (op_modes dev)
  | set_vertical_swing_mode v => In v (vertical_swing_modes dev)
  | set_horizontal_swing_mode v => In v (horizontal_swing_modes dev)
  end.

(** A call as a run; the value a property returns is dropped. *)
Definition perform (c : Call) : M unit :=
  match c with
  | read_hvac_mode => hvac_mode ;; ret tt
  | read_hvac_modes => hvac_modes ;; ret tt
  | read_preset_modes => preset_modes ;; ret tt
  | read_swing_mode => swing_mode ;; ret tt
  | read_swing_horizontal_mode => swing_horizontal_mode ;; ret tt
  | set_hvac_mode m => async_set_hvac_mode m
  | set_preset_mode l => async_set_preset_mode l
  | set_swing_mode v => async_set_swing_mode v
  | set_swing_horizontal_mode v => async_set_swing_horizontal_mode v
  | turn_on => async_turn_on
  | turn_off => async_turn_off
  end.

End ACMore.

(** ** The rest of the air-conditioner entity: temperature, fan, features

    These coroutines and properties use three more commands of the device
    and the fan-mode list, on top of what [AC] models.  Temperatures pass
    through the entity untouched, so their type is left open. *)

Module ACFull.
Import AC.

(** [ClimateEntityFeature], an [IntFlag] of the platform. *)
Definition TARGET_TEMPERATURE : Z := 1.
Definition TARGET_TEMPERATURE_RANGE : Z := 2.
Definition TARGET_HUMIDITY : Z := 4.
Definition FAN_MODE : Z := 8.
Definition PRESET_MODE : Z := 16.
Definition SWING_MODE : Z := 32.
Definition AUX_HEAT : Z := 64.
Definition TURN_OFF : Z := 128.
Definition TURN_ON : Z := 256.
Definition SWING_HORIZONTAL_MODE : Z := 512.

Definition DEFAULT_AC_FEATURES : Z :=
  Z.lor (Z.lor TARGET_TEMPERATURE TURN_OFF) TURN_ON.

(** [flag in features] *)
Definition has_flag (features flag : Z) : bool :=
  (Z.land features flag =? flag)%Z.

Section Temperature.
Variable Temp : Type.

(** The other calls made on the device object. *)
Inductive MoreCmd : Type :=
| set_target_temp (value : Temp)
| set_fan_speed (speed : string)
| set_reservation_sleep_time (minutes : Z).

(** The calls of a run: those of [AC], or one of the above. *)
Inductive XEvent : Type :=
| Base (e : Event)
| More (c : MoreCmd).

(** The exceptions of [AC], and what the device layer raises when one of
    the other commands fails. *)
Inductive XExn : Type :=
| Of (e : Exn)
| MoreDeviceError (c : MoreCmd).

Inductive XOutcome (A : Type) : Type :=
| XReturn (a : A)
| XRaise (e : XExn).
Arguments XReturn {A} a.
Arguments XRaise {A} e.

(** The environment of [AC], with [self._device.fan_speeds],
    [self._api.state.fan_speed] and the failures of the other commands. *)
Record XEnv : Type := {
  base_env : Env;
  fan_speeds : list string;
  fan_speed : option string;
  more_fails : MoreCmd -> bool
}.

(** The entity of [AC], with [_attr_fan_modes]. *)
Record XAdapter : Type := {
  base : Adapter;
  _attr_fan_modes : list string
}.

Definition MX (A : Type) : Type :=
  XEnv -> XAdapter -> XOutcome A * XAdapter * list XEvent.

Definition xret {A : Type} (a : A) : MX A :=
  fun _ self => (XReturn a, self, []).

Definition xraise {A : Type} (e : Exn) : MX A :=
  fun _ self => (XRaise (Of e), self, []).

Definition xbind {A B : Type} (m : MX A) (k : A -> MX B) : MX B :=
  fun env self =>
    match m env self with
    | (XReturn a, self', evs) =>
        match k a env self' with
        | (r, self'', evs') => (r, self'', (evs ++ evs')%list)
        end
    | (XRaise e, self', evs) => (XRaise e, self', evs)
    end.

Declare Scope pyx_scope.
Notation "x <- m ;; k" := (xbind m (fun x => k))
  (at level 61, m at next level, right associativity) : pyx_scope.
Notation "m ;; k" := (xbind m (fun _ => k))
  (at level 61, right associativity) : pyx_scope.
Local Open Scope pyx_scope.

(** A run of [AC], on the [AC] part of the entity. *)
Definition lift {A : Type} (m : M A) : MX A :=
  fun env self =>
    match m (base_env env) (base self) with
    | (r, self', evs) =>
        (match r with Return a => XReturn a | Raise e => XRaise (Of e) end,
         {| base := self'; _attr_fan_modes := _attr_fan_modes self |},
         map Base evs)
    end.

(** [await self._device.<c>(...)], for the other commands. *)
Definition more_call (c : MoreCmd) : MX unit :=
  fun env self =>
    (if more_fails env c then XRaise (MoreDeviceError c) else XReturn tt,
     self, [More c]).

(** [LGEACClimate.__init__], with the fan modes. *)
Definition __init__ (speeds : list string) (dev : Device) : XAdapter :=
  {| base := AC.__init__ dev; _attr_fan_modes := speeds |}.

(** [ClimateEntity.fan_modes] returns the [_attr_] value. *)
Definition fan_modes : MX (list string) :=
  fun _ self => (XReturn (_attr_fan_modes self), self, []).

Definition fan_mode : MX (option string) :=
  fun env self => (XReturn (fan_speed env), self, []).

Definition async_set_fan_mode (mode : string) : MX unit :=
  modes <- fan_modes ;;
  if negb (list_contains modes mode) then
    xraise (ValueError ("Invalid fan mode [" ++ mode ++ "]"))
  else
    more_call (set_fan_speed mode) ;;
    lift async_set_updated.

(** [async_set_temperature], for the two keyword options it reads:
    [ATTR_HVAC_MODE] and [ATTR_TEMPERATURE]. *)
Definition async_set_temperature
    (hvac_mode : option HVACMode) (temperature : option Temp) : MX unit :=
  let set_target :=
    match temperature with
    | Some new_temp =>
        more_call (set_target_temp new_temp) ;;
        lift async_set_updated
    | None => xret tt
    end in
  match hvac_mode with
  | Some mode =>
      lift (async_set_hvac_mode mode) ;;
      if py_eqb mode OFF then xret tt else set_target
  | None => set_target
  end.

(** [LGEACClimate.async_set_sleep_time] *)
Definition async_set_sleep_time (sleep_time : Z) : MX unit :=
  more_call (set_reservation_sleep_time sleep_time).

(** [LGEClimate.async_set_sleep_time], which the refrigerator entity
    inherits. *)
Definition LGEClimate_async_set_sleep_time (sleep_time : Z) : MX unit :=
  xraise NotImplementedError.

Definition supported_features : MX Z :=
  let features := DEFAULT_AC_FEATURES in
  modes <- fan_modes ;;
  let features :=
    if (0 <? length modes)%nat then Z.lor features FAN_MODE else features in
  presets <- lift preset_modes ;;
  let features :=
    if truthy_list presets then Z.lor features PRESET_MODE else features in
  swing <- lift swing_modes ;;
  let features :=
    if truthy_list swing then Z.lor features SWING_MODE else features in
  hswing <- lift swing_horizontal_modes ;;
  let features :=
    if truthy_list hswing then Z.lor features SWING_HORIZONTAL_MODE
    else features in
  xret features.

(** The commands of the three kinds among the calls of a run. *)
Fixpoint more_commands (evs : list XEvent) : list MoreCmd :=
  match evs with
  | [] => []
  | More c :: r => c :: more_commands r
  | Base _ :: r => more_commands r
  end.

(** How often the coordinator was marked updated. *)
Fixpoint updates (evs : list XEvent) : nat :=
  match evs with
  | [] => 0
  | Base SetUpdated :: r => S (updates r)
  | _ :: r => updates r
  end.

End Temperature.

Arguments XReturn {Temp A} a.
Arguments XRaise {Temp A} e.
Arguments Of {Temp} e.
Arguments Base {Temp} e.
Arguments set_fan_speed {Temp} speed.
Arguments set_reservation_sleep_time {Temp} minutes.
Arguments fan_modes {Temp}.
Arguments fan_mode {Temp}.
Arguments async_set_fan_mode {Temp} mode.
Arguments async_set_sleep_time {Temp} sleep_time.
Arguments LGEClimate_async_set_sleep_time {Temp} sleep_time.
Arguments supported_features {Temp}.
Arguments lift {Temp A} m.
Arguments base_env {Temp} x.
Arguments fan_speeds {Temp} x.
Arguments fan_speed {Temp} x.
Arguments more_fails {Temp} x c.
Arguments set_target_temp {Temp} value.
Arguments More {Temp} c.
Arguments MoreDeviceError {Temp} c.
Arguments xret {Temp A} a.
Arguments xraise {Temp A} e.
Arguments xbind {Temp A B} m k.
Arguments more_call {Temp} c.
Arguments async_set_temperature {Temp} hvac_mode temperature.
Arguments more_commands {Temp} evs.
Arguments updates {Temp} evs.

End ACFull.

(** ** Setting the platform up *)

Module Setup.

(** [text[n:]] *)
Fixpoint slice_from (n : nat) (text : string) : string :=
  match n, text with
  | O, _ => text
  | S n', String _ r => slice_from n' r
  | S _, EmptyString => EmptyString
  end.

(** [remove_prefix]; [String.prefix p t] is [t.startswith(p)]. *)
Definition remove_prefix (text prefix : string) : string :=
  if String.prefix prefix text
  then slice_from (String.length prefix) text
  else text.

Definition ATTR_FRIDGE : string := "fridge".
Definition ATTR_FREEZER : string := "freezer".

(** The keys of the descriptions in [REFRIGERATOR_CLIMATE], in order. *)
Definition REFRIGERATOR_CLIMATE_keys : list string :=
  [ATTR_FRIDGE; ATTR_FREEZER].

(** [DeviceType]: the two kinds this platform serves, and the others. *)
Inductive DeviceType : Type :=
| AC
| REFRIGERATOR
| OTHER (kind : nat).

Definition DeviceType_eqb (a b : DeviceType) : bool :=
  match a, b with
  | AC, AC | REFRIGERATOR, REFRIGERATOR => true
  | OTHER m, OTHER n => Nat.eqb m n
  | _, _ => false
  end.

#[export] Instance DeviceType_PyEq : PyEq DeviceType := DeviceType_eqb.

Section Discovery.
(** [LGEDevice], of which the entities use the [unique_id]. *)
Variable LGEDevice : Type.
Variable unique_id : LGEDevice -> string.

(** The entities the platform creates. *)
Inductive Entity : Type :=
| LGEACClimate (api : LGEDevice)
| LGERefrigeratorClimate (api : LGEDevice) (description_key : string).

(** [_attr_unique_id], as the two constructors set it. *)
Definition _attr_unique_id (e : Entity) : string :=
  match e with
  | LGEACClimate api => unique_id api ++ "-AC"
  | LGERefrigeratorClimate api key => unique_id api ++ "-" ++ key ++ "-AC"
  end.

(** [_async_discover_device]: the list handed to [async_add_entities], or
    [None] when it returns without calling it. *)
Definition _async_discover_device
    (lge_devices : option (dict DeviceType (list LGEDevice)))
  : option (list Entity) :=
  match lge_devices with
  | None | Some [] => None
  | Some devices =>
      let lge_climates :=
        map LGEACClimate (PyDict.get_default devices AC []) in
      Some
        (lge_climates
         ++ flat_map
              (fun refrigerator_desc =>
                 map (fun lge_device =>
                        LGERefrigeratorClimate lge_device refrigerator_desc)
                     (PyDict.get_default devices REFRIGERATOR []))
              REFRIGERATOR_CLIMATE_keys)%list
  end.
End Discovery.

Arguments LGEACClimate {LGEDevice} api.
Arguments LGERefrigeratorClimate {LGEDevice} api description_key.
Arguments _attr_unique_id {LGEDevice} unique_id e.
Arguments _async_discover_device {LGEDevice} lge_devices.

End Setup.

(** ** More runs of the example devices *)

Module Scenario2.
Import AC Scenario.

(** [device0] running in its energy-saving mode, and its entity after the
    platform has read [hvac_mode] once. *)
Definition eco_env : Env := env0 (snapshot true (Some "ENERGY_SAVER")).

Definition eco_entity : Adapter :=
  step read_hvac_mode eco_env (__init__ device0).

(** [device0] switched off. *)
Definition off_env : Env := env0 (snapshot false (Some "HEAT")).

(** A device with the COOL operating mode only, reporting a mode that is
    in no table. *)
Definition device3 : Device :=
  {| op_modes := ["COOL"];
     vertical_swing_modes := [];
     horizontal_swing_modes := [] |}.

Definition env3 : Env :=
  {| device := device3;
     state := snapshot true (Some "FAN");
     command_fails := fun _ => false |}.

(** [device0] with two fan speeds; temperatures in whole degrees. *)
Definition xenv0 : ACFull.XEnv Z :=
  {| ACFull.base_env := eco_env;
     ACFull.fan_speeds := ["LOW"; "HIGH"];
     ACFull.fan_speed := Some "LOW";
     ACFull.more_fails := fun _ => false |}.

Definition xentity0 : ACFull.XAdapter :=
  ACFull.__init__ ["LOW"; "HIGH"] device0.

(** One air conditioner, two refrigerators and a washer, by unique id. *)
Definition found : dict Setup.DeviceType (list string) :=
  [ (Setup.AC, ["ac-1"]);
    (Setup.REFRIGERATOR, ["ref-1"; "ref-2"]);
    (Setup.OTHER 0, ["washer-1"]) ].

End Scenario2.

(** * Properties *)


(** ** Dictionaries *)

#[export] Instance string_PyEqOk : PyEqOk string.
Proof. intros a b. apply String.eqb_eq. Qed.

#[export] Instance HVACMode_PyEqOk : PyEqOk HVACMode.
Proof. intros [] []; split; intro E; (reflexivity || discriminate E). Qed.

Lemma py_eqb_refl {A : Type} `{PyEqOk A} (a : A) : py_eqb a a = true.
Proof. now apply py_eqb_eq. Qed.

Lemma py_eqb_neq {A : Type} `{PyEqOk A} (a b : A) :
  py_eqb a b = false <-> a <> b.
Proof.
  split.
  - intros E F. apply py_eqb_eq in F. congruence.
  - intro F. destruct (py_eqb a b) eqn:E; [|reflexivity].
    apply py_eqb_eq in E. contradiction.
Qed.

Lemma list_contains_In {A : Type} `{PyEqOk A} (l : list A) (x : A) :
  list_contains l x = true <-> In x l.
Proof.
  unfold list_contains. rewrite existsb_exists. split.
  - intros (y & Hy & E). apply py_eqb_eq in E. now subst.
  - intro Hx. exists x. split; [assumption | apply py_eqb_refl].
Qed.

Lemma list_contains_not_In {A : Type} `{PyEqOk A} (l : list A) (x : A) :
  list_contains l x = false <-> ~ In x l.
Proof.
  rewrite <- list_contains_In. destruct (list_contains l x); split; congruence.
Qed.

Module PyDictFacts.
Import PyDict.
Local Open Scope list_scope.

Section Facts.
Context {K V : Type} `{PyEqOk K}.
Implicit Types (d l : list (K * V)) (k : K) (v : V).

Lemma get_In d k v : get d k = Some v -> In (k, v) d.
Proof.
  induction d as [|[k' v'] r IH]; simpl; [discriminate|].
  destruct (py_eqb k' k) eqn:E.
  - apply py_eqb_eq in E. intros [= ->]. subst. now left.
  - intro G. right. auto.
Qed.

Lemma get_None d k : get d k = None <-> ~ In k (keys d).
Proof.
  induction d as [|[k' v'] r IH]; simpl; [tauto|].
  destruct (py_eqb k' k) eqn:E.
  - apply py_eqb_eq in E. split; [discriminate | intros F; exfalso; auto].
  - apply py_eqb_neq in E. rewrite IH. tauto.
Qed.

Lemma In_get d k v : NoDup (keys d) -> In (k, v) d -> get d k = Some v.
Proof.
  induction d as [|[k' v'] r IH]; simpl; [tauto|].
  intros ND [[= -> ->]|Hin].
  - now rewrite py_eqb_refl.
  - inversion ND as [|? ? Hk ND']; subst.
    destruct (py_eqb k' k) eqn:E; [|auto].
    apply py_eqb_eq in E. subst. exfalso. apply Hk.
    change k with (fst (k, v)). now apply in_map.
Qed.

Lemma In_set d k v k' v' :
  In (k, v) (set d k' v') -> (k, v) = (k', v') \/ In (k, v) d.
Proof.
  induction d as [|[k0 v0] r IH]; simpl.
  - intros [E|[]]. now left.
  - destruct (py_eqb k0 k') eqn:E; simpl.
    + apply py_eqb_eq in E. subst. intros [[= -> ->]|Hin]; auto.
    + intros [E'|Hin]; [auto|]. destruct (IH Hin); auto.
Qed.

Lemma set_fresh d k v : ~ In k (keys d) -> set d k v = d ++ [(k, v)].
Proof.
  induction d as [|[k0 v0] r IH]; simpl; [reflexivity|].
  intro Hk. destruct (py_eqb k0 k) eqn:E.
  - apply py_eqb_eq in E. exfalso. auto.
  - rewrite IH; auto.
Qed.

Lemma get_set_same d k v : get (set d k v) k = Some v.
Proof.
  induction d as [|[k0 v0] r IH]; simpl.
  - now rewrite py_eqb_refl.
  - destruct (py_eqb k0 k) eqn:E; simpl; rewrite E; auto.
Qed.

Lemma get_set_other d k v k' : k' <> k -> get (set d k v) k' = get d k'.
Proof.
  intro N. induction d as [|[k0 v0] r IH]; simpl.
  - apply not_eq_sym in N. apply py_eqb_neq in N. now rewrite N.
  - destruct (py_eqb k0 k) eqn:E; simpl.
    + apply py_eqb_eq in E. subst k0.
      apply not_eq_sym in N. apply py_eqb_neq in N. now rewrite N.
    + now rewrite IH.
Qed.

Lemma fold_set_NoDup l : forall d,
  NoDup (keys (d ++ l)) ->
  fold_left (fun acc kv => set acc (fst kv) (snd kv)) l d = d ++ l.
Proof.
  induction l as [|[k v] r IH]; intros d ND; simpl.
  - now rewrite app_nil_r.
  - rewrite set_fresh.
    + rewrite IH; rewrite <- app_assoc; [reflexivity | exact ND].
    + unfold keys in ND. rewrite map_app in ND. simpl in ND.
      apply NoDup_remove_2 in ND. intro F. apply ND.
      apply in_or_app. now left.
Qed.

(** A display or comprehension over distinct keys is the list of its
    items. *)
Lemma of_items_NoDup l : NoDup (keys l) -> of_items l = l.
Proof. intro ND. unfold of_items. now rewrite fold_set_NoDup. Qed.

Lemma In_fold_set l : forall d k v,
  In (k, v) (fold_left (fun acc kv => set acc (fst kv) (snd kv)) l d) ->
  In (k, v) d \/ In (k, v) l.
Proof.
  induction l as [|[k0 v0] r IH]; intros d k v; simpl; [auto|].
  intro Hin. destruct (IH _ _ _ Hin) as [Hs|Hr]; [|auto].
  destruct (In_set _ _ _ _ _ Hs) as [E|Hd]; auto.
Qed.

Lemma In_of_items l k v : In (k, v) (of_items l) -> In (k, v) l.
Proof. intro Hin. destruct (In_fold_set _ _ _ _ Hin) as [[]|]; auto. Qed.

Lemma get_fold_set l : forall d k,
  get (fold_left (fun acc kv => set acc (fst kv) (snd kv)) l d) k = None ->
  get d k = None /\ ~ In k (keys l).
Proof.
  induction l as [|[k0 v0] r IH]; intros d k; simpl; [tauto|].
  intro G. destruct (IH _ _ G) as [Gs Nr].
  assert (N : k <> k0).
  { intros ->. rewrite get_set_same in Gs. discriminate. }
  rewrite get_set_other in Gs by exact N.
  split; [exact Gs|]. intros [E|F]; [congruence | contradiction].
Qed.

Lemma keys_filter_NoDup (f : K * V -> bool) l :
  NoDup (keys l) -> NoDup (keys (filter f l)).
Proof.
  induction l as [|[k v] r IH]; simpl; [auto|].
  intro ND. inversion ND as [|? ? Hk ND']; subst.
  destruct (f (k, v)); simpl; [|auto].
  constructor; [|auto]. intro F. apply Hk.
  unfold keys in *. apply in_map_iff in F as ([k1 v1] & E & Hin).
  apply filter_In in Hin as [Hin _]. apply in_map_iff. eauto.
Qed.
End Facts.

Section Invert.
Context {K V : Type} `{PyEqOk V}.

(** A reverse lookup only finds items of the dictionary. *)
Lemma get_invert (d : list (K * V)) (k : K) (v : V) :
  get (invert d) v = Some k -> In (k, v) d.
Proof.
  intro G. apply get_In, In_of_items in G.
  apply in_map_iff in G as ([k' v'] & [= -> ->] & Hin). exact Hin.
Qed.

(** It finds a key for every value of the dictionary. *)
Lemma get_invert_None (d : list (K * V)) (v : V) :
  get (invert d) v = None <-> ~ In v (values d).
Proof.
  split.
  - intro G. apply get_fold_set in G as [_ N]. intro F. apply N.
    unfold keys, values in *. rewrite map_map. exact F.
  - intro N. apply get_None. intro F. apply N.
    unfold keys, values in *. apply in_map_iff in F as ([v' k'] & E & Hin).
    simpl in E. subst v'. apply In_of_items in Hin.
    apply in_map_iff in Hin as ([k1 v1] & [= -> ->] & Hin).
    apply in_map_iff. exists (k', v). auto.
Qed.
End Invert.

End PyDictFacts.

(** ** The air-conditioner entity *)

Module ACFacts.
Import PyDict PyDictFacts AC.
Local Open Scope list_scope.
Local Open Scope py_scope.

Arguments build_hvac_mode_lookup : simpl never.
Arguments build_preset_modes : simpl never.
Arguments build_preset_mode_lookup : simpl never.

(** *** The global tables *)

Lemma HVAC_MODE_LOOKUP_items :
  HVAC_MODE_LOOKUP =
    [ ("AI", AUTO); ("HEAT", HEAT); ("DRY", DRY); ("COOL", COOL);
      ("AIRCLEAN", FAN_ONLY); ("ACO", HEAT_COOL) ]%string.
Proof. reflexivity. Qed.

Lemma PRESET_MODE_LOOKUP_items :
  PRESET_MODE_LOOKUP =
    [ ("ENERGY_SAVING"%string, {| preset := PRESET_ECO; hvac := COOL |});
      ("ENERGY_SAVER"%string, {| preset := PRESET_ECO; hvac := COOL |}) ].
Proof. reflexivity. Qed.

Ltac nodup_strings :=
  repeat (constructor; [simpl; intuition discriminate|]); constructor.

Lemma HVAC_MODE_LOOKUP_NoDup : NoDup (keys HVAC_MODE_LOOKUP).
Proof. rewrite HVAC_MODE_LOOKUP_items. simpl. nodup_strings. Qed.

Lemma PRESET_MODE_LOOKUP_NoDup : NoDup (keys PRESET_MODE_LOOKUP).
Proof. rewrite PRESET_MODE_LOOKUP_items. simpl. nodup_strings. Qed.

(** No vendor code is both an HVAC mode and a preset. *)
Lemma lookups_disjoint code :
  In code (keys HVAC_MODE_LOOKUP) -> ~ In code (keys PRESET_MODE_LOOKUP).
Proof.
  rewrite HVAC_MODE_LOOKUP_items, PRESET_MODE_LOOKUP_items. simpl.
  intuition (subst; discriminate).
Qed.

(** *** The HVAC table of a device *)

Lemma build_hvac_mode_lookup_eq S :
  build_hvac_mode_lookup S =
    match restriction S with
    | [] => [(HVAC_MODE_NONE, AUTO)]
    | _ :: _ => restriction S
    end.
Proof.
  unfold build_hvac_mode_lookup. fold (restriction S).
  rewrite of_items_NoDup
    by (apply keys_filter_NoDup, HVAC_MODE_LOOKUP_NoDup).
  now destruct (restriction S).
Qed.

Lemma restriction_get S k v :
  get (restriction S) k = Some v <->
  In k S /\ get HVAC_MODE_LOOKUP k = Some v.
Proof.
  pose proof HVAC_MODE_LOOKUP_NoDup as ND. split.
  - intro G. apply get_In, filter_In in G as [Hin Hk]. simpl in Hk.
    apply list_contains_In in Hk. split; [exact Hk|]. now apply In_get.
  - intros [Hk G]. apply In_get.
    + now apply keys_filter_NoDup.
    + apply filter_In. split; [now apply get_In|].
      simpl. now apply list_contains_In.
Qed.

Lemma restriction_nil S :
  restriction S = [] <-> (forall k, In k S -> ~ In k (keys HVAC_MODE_LOOKUP)).
Proof.
  split.
  - intros E k Hk F. apply in_map_iff in F as ([k' v] & <- & Hin).
    assert (Hr : In (k', v) (restriction S)).
    { apply filter_In. split; [exact Hin|]. simpl. now apply list_contains_In. }
    rewrite E in Hr. exact Hr.
  - intro Hd. destruct (restriction S) as [|[k v] r] eqn:E; [reflexivity|].
    assert (Hr : In (k, v) (restriction S)) by (rewrite E; now left).
    apply filter_In in Hr as [Hin Hk]. simpl in Hk.
    apply list_contains_In in Hk. exfalso. apply (Hd k Hk).
    change k with (fst (k, v)). now apply in_map.
Qed.

Lemma build_hvac_mode_lookup_NoDup S : NoDup (keys (build_hvac_mode_lookup S)).
Proof.
  rewrite build_hvac_mode_lookup_eq.
  destruct (restriction S) eqn:E.
  - simpl. nodup_strings.
  - rewrite <- E. apply keys_filter_NoDup, HVAC_MODE_LOOKUP_NoDup.
Qed.

(** *** Running the cached tables *)

Lemma with_hvac_mode_lookup_same self t :
  _hvac_mode_lookup self = Some t -> with_hvac_mode_lookup self t = self.
Proof. destruct self; simpl. now intros ->. Qed.

Lemma available_hvac_modes_run env self :
  caches_ok (device env) self ->
  _available_hvac_modes env self =
    (Return (build_hvac_mode_lookup (op_modes (device env))),
     with_hvac_mode_lookup self (build_hvac_mode_lookup (op_modes (device env))),
     []).
Proof.
  intros [[E|E] _]; unfold _available_hvac_modes, bind, get_self; rewrite E.
  - reflexivity.
  - cbn. now rewrite with_hvac_mode_lookup_same.
Qed.

Lemma caches_ok_with_hvac dev self :
  caches_ok dev self ->
  caches_ok dev (with_hvac_mode_lookup self (build_hvac_mode_lookup (op_modes dev))).
Proof. intros [_ P]. split; simpl; auto. Qed.

Lemma caches_ok_with_attr dev self p :
  caches_ok dev self -> caches_ok dev (with_attr_preset_mode self p).
Proof. intros [Hh P]. split; simpl; auto. Qed.

Lemma caches_ok_with_preset dev self :
  caches_ok dev self ->
  caches_ok dev
    (with_preset_mode_lookup self (build_preset_mode_lookup (op_modes dev))).
Proof. intros [Hh _]. split; simpl; auto. Qed.

Lemma caches_ok_init dev : caches_ok dev (__init__ dev).
Proof. split; simpl; auto. Qed.

(** C1: for every operating-mode set [S] of the device, the table
    [_available_hvac_modes] returns is not empty; it is [HVAC_MODE_LOOKUP]
    restricted to the keys in [S] when that restriction is not empty (as a
    list of items, and so also key by key), and it is exactly
    [{HVAC_MODE_NONE: AUTO}] when [S] shares no key with [HVAC_MODE_LOOKUP].
    The call raises nothing and issues no command. *)
Theorem available_hvac_modes_table (env : Env) (self : Adapter) :
  caches_ok (device env) self ->
  let S := op_modes (device env) in
  exists lookup self',
    _available_hvac_modes env self = (Return lookup, self', [])
    /\ lookup <> []
    /\ (restriction S <> [] ->
        lookup = restriction S
        /\ forall k v, get lookup k = Some v <->
                       In k S /\ get HVAC_MODE_LOOKUP k = Some v)
    /\ ((forall k, In k S -> ~ In k (keys HVAC_MODE_LOOKUP)) ->
        lookup = [(HVAC_MODE_NONE, AUTO)]).
Proof.
  intros OK S. eexists. eexists.
  split; [apply available_hvac_modes_run, OK|]. fold S.
  rewrite build_hvac_mode_lookup_eq.
  split; [|split].
  - destruct (restriction S) eqn:E; discriminate.
  - intro NE. destruct (restriction S) eqn:E; [contradiction|].
    rewrite <- E. split; [reflexivity|]. intros. apply restriction_get.
  - intro Hd. apply restriction_nil in Hd. now rewrite Hd.
Qed.

(** *** The preset table of a device *)

Lemma fold_preset_modes_In S hv (table : list (string * PresetEntry)) :
  forall acc label code,
    In (label, code)
       (fold_left
          (fun modes (item : string * PresetEntry) =>
             let (key, mode) := item in
             if negb (list_contains S key) then modes
             else if negb (list_contains hv (hvac mode)) then modes
             else set modes (preset mode) key)
          table acc) ->
    In (label, code) acc
    \/ (In code S
        /\ exists entry, In (code, entry) table
                         /\ preset entry = label /\ In (hvac entry) hv).
Proof.
  induction table as [|[key mode] r IH]; intros acc label code; simpl.
  - auto.
  - intro Hin. apply IH in Hin as [Hacc|(HS & entry & Hr & Hp & Hh)].
    + destruct (list_contains S key) eqn:EK; simpl in Hacc; [|auto].
      destruct (list_contains hv (hvac mode)) eqn:EH; simpl in Hacc; [|auto].
      apply In_set in Hacc as [[= -> ->]|Hacc]; [|auto].
      right. apply list_contains_In in EK, EH. eauto 6.
    + right. eauto 6.
Qed.

Lemma build_preset_modes_In S hv label code :
  In (label, code) (build_preset_modes S hv) ->
  In code S
  /\ exists entry, get PRESET_MODE_LOOKUP code = Some entry
                   /\ preset entry = label /\ In (hvac entry) hv.
Proof.
  intro Hin. apply fold_preset_modes_In in Hin
    as [[]|(HS & entry & Hr & Hp & Hh)].
  split; [exact HS|]. exists entry. split; [|auto].
  apply In_get; [apply PRESET_MODE_LOOKUP_NoDup | exact Hr].
Qed.

(** Every item of the preset table comes from an entry of
    [PRESET_MODE_LOOKUP] that passed both tests. *)
Lemma build_preset_mode_lookup_In S code label :
  In (code, label) (build_preset_mode_lookup S) ->
  In code S
  /\ exists entry, get PRESET_MODE_LOOKUP code = Some entry
                   /\ preset entry = label
                   /\ In (hvac entry) (values (build_hvac_mode_lookup S)).
Proof.
  intro Hin. apply In_of_items in Hin.
  apply in_map_iff in Hin as ([l c] & [= -> ->] & Hin).
  now apply build_preset_modes_In.
Qed.

(** The loop on the two entries of the table, in closed form. *)
Lemma build_preset_modes_eq S hv :
  build_preset_modes S hv =
    if list_contains hv COOL then
      if list_contains S "ENERGY_SAVER" then [(PRESET_ECO, "ENERGY_SAVER"%string)]
      else if list_contains S "ENERGY_SAVING"
           then [(PRESET_ECO, "ENERGY_SAVING"%string)]
           else []
    else [].
Proof.
  unfold build_preset_modes. rewrite PRESET_MODE_LOOKUP_items. simpl.
  destruct (list_contains S "ENERGY_SAVING"), (list_contains S "ENERGY_SAVER"),
    (list_contains hv COOL); reflexivity.
Qed.

Lemma with_preset_mode_lookup_same self t :
  _preset_mode_lookup self = Some t -> with_preset_mode_lookup self t = self.
Proof. destruct self; simpl. now intros ->. Qed.

(** What a call of [_available_preset_modes] returns and leaves behind. *)
Lemma available_preset_modes_run env self :
  caches_ok (device env) self ->
  exists self',
    _available_preset_modes env self
    = (Return (build_preset_mode_lookup (op_modes (device env))), self', [])
    /\ caches_ok (device env) self'
    /\ _use_h_mode self' = _use_h_mode self
    /\ _attr_swing_modes self' = _attr_swing_modes self
    /\ _attr_swing_horizontal_modes self' = _attr_swing_horizontal_modes self.
Proof.
  intros OK. pose proof OK as [_ [E|E]].
  - unfold _available_preset_modes, bind at 1, get_self. rewrite E.
    unfold bind at 1. rewrite (available_hvac_modes_run _ _ OK).
    fold (build_preset_mode_lookup (op_modes (device env))).
    set (P := build_preset_mode_lookup (op_modes (device env))).
    set (H := build_hvac_mode_lookup (op_modes (device env))).
    unfold bind, ask, get_self, put_self, ret.
    destruct (truthy (build_preset_modes (op_modes (device env)) (values H)));
      cbn; eexists; (split; [reflexivity|]);
      (split; [|auto]);
      (split; cbn; [|auto]); destruct OK as [_ _]; auto.
  - exists self. unfold _available_preset_modes, bind, get_self. rewrite E.
    cbn. auto.
Qed.

(** C2: every vendor code of the preset table [_available_preset_modes]
    returns is one of the device's operating modes, and the HVAC mode
    [PRESET_MODE_LOOKUP] associates with it is among the values of the HVAC
    table; when two entries of [PRESET_MODE_LOOKUP] with the same preset
    label both pass the tests, the table holds the later vendor code for
    that label and not the earlier one, and the call returns normally. *)
Theorem available_preset_modes_sound (env : Env) (self : Adapter) :
  caches_ok (device env) self ->
  let S := op_modes (device env) in
  exists presets self' H self'',
    _available_preset_modes env self = (Return presets, self', [])
    /\ _available_hvac_modes env self = (Return H, self'', [])
    /\ (forall code label, In (code, label) presets ->
          In code S
          /\ exists entry, get PRESET_MODE_LOOKUP code = Some entry
                           /\ preset entry = label
                           /\ In (hvac entry) (values H))
    /\ (forall i j ci ei cj ej,
          (i < j)%nat ->
          nth_error PRESET_MODE_LOOKUP i = Some (ci, ei) ->
          nth_error PRESET_MODE_LOOKUP j = Some (cj, ej) ->
          preset ei = preset ej ->
          In ci S -> In (hvac ei) (values H) ->
          In cj S -> In (hvac ej) (values H) ->
          presets = [(cj, preset ej)]
          /\ get presets cj = Some (preset ej) /\ get presets ci = None).
Proof.
  intros OK S.
  destruct (available_preset_modes_run env self OK) as (self' & Run & _).
  eexists. exists self'. eexists. eexists.
  split; [exact Run|]. split; [apply available_hvac_modes_run, OK|].
  fold S. split.
  - intros code label. apply build_preset_mode_lookup_In.
  - intros i j ci ei cj ej Lt Hi Hj _ HiS Hih HjS Hjh.
    rewrite PRESET_MODE_LOOKUP_items in Hi, Hj.
    destruct i as [|[|i]], j as [|[|j]]; simpl in Hi, Hj;
      try lia; try discriminate;
      try (destruct j; discriminate); try (destruct i; discriminate).
    injection Hi as <- <-. injection Hj as <- <-. simpl in Hjh.
    apply list_contains_In in HjS, Hjh.
    unfold build_preset_mode_lookup. rewrite build_preset_modes_eq.
    rewrite Hjh, HjS. cbn. auto.
Qed.

(** *** Reading [hvac_mode] *)

Lemma clear_preset_run env self :
  clear_preset env self =
    (Return tt,
     if truthy_str (_attr_preset_mode self)
     then with_attr_preset_mode self (Some PRESET_NONE) else self,
     []).
Proof.
  unfold clear_preset, bind, get_self, put_self, ret.
  now destruct (truthy_str (_attr_preset_mode self)).
Qed.

Lemma hvac_mode_off_run env self :
  is_on (state env) = false \/ operation_mode (state env) = None ->
  hvac_mode env self =
    (Return OFF,
     if truthy_str (_attr_preset_mode self)
     then with_attr_preset_mode self (Some PRESET_NONE) else self,
     []).
Proof.
  intro Off. unfold hvac_mode, bind at 1, ask.
  destruct Off as [Off|Off]; rewrite Off;
    [destruct (operation_mode (state env))|destruct (is_on (state env))];
    unfold bind; rewrite clear_preset_run; reflexivity.
Qed.

(** C4, as amended: when the snapshot reports the device off, or no
    operating mode, [hvac_mode] returns [OFF] without any command; the
    active-preset attribute becomes ["none"] when it held a non-empty
    string, and keeps its value ([None], before any preset table was
    built) otherwise. *)
Theorem hvac_mode_off (env : Env) (self : Adapter) :
  is_on (state env) = false \/ operation_mode (state env) = None ->
  exists self',
    hvac_mode env self = (Return OFF, self', [])
    /\ _attr_preset_mode self' =
         (if truthy_str (_attr_preset_mode self) then Some PRESET_NONE
          else _attr_preset_mode self)
    /\ (forall label, _attr_preset_mode self = Some label -> label <> ""%string ->
        _attr_preset_mode self' = Some PRESET_NONE)
    /\ (_attr_preset_mode self = None -> _attr_preset_mode self' = None).
Proof.
  intro Off. eexists. split; [apply hvac_mode_off_run, Off|].
  destruct (_attr_preset_mode self) as [[|c r]|] eqn:E; simpl;
    rewrite ?E; repeat split; congruence.
Qed.

(** *** Setting the HVAC mode *)

(** C5: [set_hvac_mode(OFF)] issues the power-off command and no other
    device command (no set-operating-mode, no power-on), whatever the
    entity's attributes, the snapshot and the device's answer; the entity is
    left as it was, and the coordinator is marked updated exactly when the
    command did not fail. *)
Theorem set_hvac_mode_off (env : Env) (self : Adapter) :
  exists r evs,
    async_set_hvac_mode OFF env self = (r, self, evs)
    /\ commands evs = [power false]
    /\ evs = Cmd (power false)
             :: (if command_fails env (power false) then [] else [SetUpdated])
    /\ r = (if command_fails env (power false)
            then Raise (DeviceError (power false)) else Return tt)
    /\ marked_updated evs = negb (command_fails env (power false)).
Proof.
  unfold async_set_hvac_mode. cbn.
  unfold bind, device_call, async_set_updated.
  destruct (command_fails env (power false)); cbn; eauto 7.
Qed.

(** C6: for a mode other than [OFF] that the reverse lookup of the table
    [_available_hvac_modes] returns does not resolve, [set_hvac_mode]
    raises the [ValueError] that names the requested value; no device
    command is issued and the coordinator is not marked updated.  The
    entity is as [_available_hvac_modes] leaves it: unchanged but for the
    table it may have cached. *)
Theorem set_hvac_mode_invalid (env : Env) (self self0 : Adapter)
    (H : list (string * HVACMode)) (m : HVACMode) :
  m <> OFF ->
  _available_hvac_modes env self = (Return H, self0, []) ->
  get (invert H) m = None ->
  async_set_hvac_mode m env self
  = (Raise (ValueError ("Invalid hvac_mode [" ++ HVACMode_value m ++ "]")%string),
     self0, [])
  /\ (self0 = self \/ self0 = with_hvac_mode_lookup self H)
  /\ _attr_preset_mode self0 = _attr_preset_mode self
  /\ _preset_mode_lookup self0 = _preset_mode_lookup self.
Proof.
  intros N Run G. split.
  - unfold async_set_hvac_mode.
    assert (E : py_eqb m OFF = false) by now apply py_eqb_neq.
    rewrite E. unfold bind at 1. rewrite Run, G. reflexivity.
  - revert Run. unfold _available_hvac_modes, bind, get_self, put_self, ask, ret.
    destruct (_hvac_mode_lookup self) eqn:E; cbn; intros [= <- <-]; auto.
Qed.

(** *** Round trip *)

(** With the device on, in an operating mode that is no preset of the
    device, [hvac_mode] reads the HVAC table. *)
Lemma hvac_mode_plain_run env self code :
  caches_ok (device env) self ->
  is_on (state env) = true ->
  operation_mode (state env) = Some code ->
  get (build_preset_mode_lookup (op_modes (device env))) code = None ->
  exists self',
    hvac_mode env self
    = (Return (get_default (build_hvac_mode_lookup (op_modes (device env)))
                 code AUTO), self', []).
Proof.
  intros OK On Op G.
  destruct (available_preset_modes_run env self OK) as (self1 & Run & OK1 & _).
  unfold hvac_mode, bind at 1, ask. rewrite On, Op.
  unfold bind at 1. rewrite Run. unfold contains. rewrite G.
  unfold bind at 1. rewrite clear_preset_run.
  unfold bind at 1. rewrite available_hvac_modes_run.
  - cbn. eauto.
  - destruct (truthy_str (_attr_preset_mode self1));
      [apply caches_ok_with_attr|]; exact OK1.
Qed.

(** An operating mode of the HVAC table other than the sentinel is a key of
    [HVAC_MODE_LOOKUP], and so no preset. *)
Lemma hvac_code_not_preset S code m :
  In (code, m) (build_hvac_mode_lookup S) ->
  code <> HVAC_MODE_NONE ->
  get (build_preset_mode_lookup S) code = None.
Proof.
  rewrite build_hvac_mode_lookup_eq. intros Hin N.
  assert (Hk : In code (keys HVAC_MODE_LOOKUP)).
  { destruct (restriction S) eqn:E.
    - destruct Hin as [[= <- _]|[]]. now contradiction N.
    - rewrite <- E in Hin. apply filter_In in Hin as [Hin _].
      change code with (fst (code, m)). now apply in_map. }
  destruct (get (build_preset_mode_lookup S) code) as [label|] eqn:G;
    [|reflexivity].
  apply get_In, build_preset_mode_lookup_In in G as (_ & entry & G & _).
  apply get_In in G. exfalso. apply (lookups_disjoint code Hk).
  change code with (fst (code, entry)). now apply in_map.
Qed.

(** The sentinel is in the HVAC table only when it is the whole table, and
    then the device has no preset. *)
Lemma sentinel_table S m :
  In (HVAC_MODE_NONE, m) (build_hvac_mode_lookup S) ->
  build_hvac_mode_lookup S = [(HVAC_MODE_NONE, AUTO)]
  /\ m = AUTO
  /\ build_preset_mode_lookup S = [].
Proof.
  intro Hin.
  assert (E : build_hvac_mode_lookup S = [(HVAC_MODE_NONE, AUTO)]).
  { revert Hin. rewrite build_hvac_mode_lookup_eq.
    destruct (restriction S) eqn:E; [reflexivity|]. rewrite <- E.
    intro Hin. apply filter_In in Hin as [Hin _]. exfalso.
    rewrite HVAC_MODE_LOOKUP_items in Hin. simpl in Hin.
    intuition discriminate. }
  split; [exact E|]. rewrite E in Hin. split.
  - destruct Hin as [[= <-]|[]]. reflexivity.
  - unfold build_preset_mode_lookup. rewrite E, build_preset_modes_eq.
    reflexivity.
Qed.

(** C3: round trip.  For a mode [m] other than [OFF] that the reverse
    lookup of the table [_available_hvac_modes] returns resolves, and a
    device that accepts the commands, [set_hvac_mode(m)] returns normally;
    it asks for the resolved operating mode, or for none when that is the
    sentinel; and under every later snapshot that reflects the run (device
    on, in the operating mode asked for, or in whatever mode it reports when
    none was asked for), the [hvac_mode] property returns [m]. *)
Theorem set_hvac_mode_round_trip (env : Env) (self self0 : Adapter)
    (H : list (string * HVACMode)) (m : HVACMode) (code : string) :
  caches_ok (device env) self ->
  m <> OFF ->
  _available_hvac_modes env self = (Return H, self0, []) ->
  get (invert H) m = Some code ->
  (forall c, command_fails env c = false) ->
  exists evs,
    async_set_hvac_mode m env self = (Return tt, self0, evs)
    /\ issued_op_mode evs
       = (if py_eqb code HVAC_MODE_NONE then None else Some code)
    /\ forall env',
         device env' = device env ->
         reflects evs (state env') ->
         exists self', hvac_mode env' self0 = (Return m, self', []).
Proof.
  intros OK N Run G NoFail.
  pose proof Run as Run'. rewrite (available_hvac_modes_run _ _ OK) in Run'.
  injection Run' as EH E0.
  assert (OK0 : caches_ok (device env) self0)
    by (rewrite <- E0; now apply caches_ok_with_hvac).
  assert (Hin : In (code, m) H) by now apply get_invert.
  assert (E : py_eqb m OFF = false) by now apply py_eqb_neq.
  exists ((if is_on (state env) then [] else [Cmd (power true)])
          ++ (if py_eqb code HVAC_MODE_NONE then []
              else [Cmd (set_op_mode code)])
          ++ [SetUpdated]).
  split; [|split].
  - unfold async_set_hvac_mode. rewrite E.
    unfold bind at 1. rewrite Run, G.
    unfold bind, ask, device_call, async_set_updated, ret.
    destruct (is_on (state env)), (py_eqb code HVAC_MODE_NONE);
      cbn; rewrite ?NoFail; reflexivity.
  - destruct (is_on (state env)), (py_eqb code HVAC_MODE_NONE); reflexivity.
  - intros env' Edev [On Op]. rewrite <- Edev in OK0. rewrite <- EH in Hin.
    rewrite <- Edev in Hin.
    set (S := op_modes (device env')) in *.
    destruct (py_eqb code HVAC_MODE_NONE) eqn:EC.
    + (* the sentinel: no operating mode was asked for *)
      apply py_eqb_eq in EC. subst code.
      apply sentinel_table in Hin as (ET & -> & EP).
      assert (Op' : exists c, operation_mode (state env') = Some c).
      { destruct (is_on (state env)); exact Op. }
      destruct Op' as [c Op'].
      destruct (hvac_mode_plain_run env' self0 c OK0 On Op') as [self' R].
      { fold S. now rewrite EP. }
      exists self'. rewrite R. fold S. rewrite ET.
      unfold get_default. simpl. now destruct (py_eqb HVAC_MODE_NONE c).
    + (* an operating mode was asked for *)
      apply py_eqb_neq in EC.
      assert (Op' : operation_mode (state env') = Some code).
      { destruct (is_on (state env)); exact Op. }
      destruct (hvac_mode_plain_run env' self0 code OK0 On Op') as [self' R].
      { now apply hvac_code_not_preset with m. }
      exists self'. rewrite R. fold S. unfold get_default.
      rewrite (In_get _ _ _ (build_hvac_mode_lookup_NoDup S) Hin).
      reflexivity.
Qed.

(** *** Running a sequence *)

Lemma bind_Return {A B} (m : M A) (k : A -> M B) env self a self' evs :
  m env self = (Return a, self', evs) ->
  bind m k env self
  = (let '(r, s, evs') := k a env self' in (r, s, evs ++ evs')).
Proof. intro E. unfold bind. now rewrite E. Qed.

Lemma bind_Raise {A B} (m : M A) (k : A -> M B) env self e self' evs :
  m env self = (Raise e, self', evs) ->
  bind m k env self = (Raise e, self', evs).
Proof. intro E. unfold bind. now rewrite E. Qed.

(** *** Swing modes *)

(** C7: setting the swing mode the device is already in is a no-op.  For
    a mode [v] of the entity's swing-mode list that the [swing_mode] getter
    reads from the snapshot, [set_swing_mode(v)] returns with no device
    command, no mark on the coordinator and the entity unchanged; likewise
    [set_swing_horizontal_mode(v)], for the horizontal list and getter. *)
Theorem set_swing_mode_idempotent (env : Env) (self : Adapter) (v : string) :
  (In v (or_empty (_attr_swing_modes self)) ->
   swing_mode env self = (Return (Some v), self, []) ->
   async_set_swing_mode v env self = (Return tt, self, []))
  /\ (In v (or_empty (_attr_swing_horizontal_modes self)) ->
      swing_horizontal_mode env self = (Return (Some v), self, []) ->
      async_set_swing_horizontal_mode v env self = (Return tt, self, [])).
Proof.
  split; intros Hin Cur; apply list_contains_In in Hin.
  - unfold async_set_swing_mode.
    erewrite bind_Return by reflexivity. rewrite Hin. cbn [negb].
    erewrite bind_Return by exact Cur.
    unfold differs. now rewrite py_eqb_refl.
  - unfold async_set_swing_horizontal_mode.
    erewrite bind_Return by reflexivity. rewrite Hin. cbn [negb].
    erewrite bind_Return by exact Cur.
    unfold differs. now rewrite py_eqb_refl.
Qed.

(** C9: for a device with horizontal swing modes and no vertical ones,
    the entity built by [__init__] presents the horizontal modes as its
    [swing_modes], has no [swing_horizontal_modes], and its [swing_mode]
    getter reads the horizontal swing state of the snapshot. *)
Theorem init_horizontal_only (dev : Device) (env : Env) :
  horizontal_swing_modes dev <> [] ->
  vertical_swing_modes dev = [] ->
  let self := __init__ dev in
  swing_modes env self = (Return (Some (horizontal_swing_modes dev)), self, [])
  /\ swing_horizontal_modes env self = (Return None, self, [])
  /\ swing_mode env self
     = (Return (horizontal_swing_mode (state env)), self, []).
Proof.
  intros NE EV self. subst self.
  unfold swing_modes, swing_horizontal_modes, swing_mode, __init__,
    bind, get_self, ask, ret.
  rewrite EV. destruct (horizontal_swing_modes dev); [contradiction|].
  cbn. auto.
Qed.

(** *** Presets *)

Lemma available_hvac_modes_shape env self :
  exists H self0, _available_hvac_modes env self = (Return H, self0, []).
Proof.
  unfold _available_hvac_modes, bind, get_self, put_self, ask, ret.
  destruct (_hvac_mode_lookup self); cbn; eauto.
Qed.

(** [_available_preset_modes] always returns, and issues nothing. *)
Lemma available_preset_modes_shape env self :
  exists P self0, _available_preset_modes env self = (Return P, self0, []).
Proof.
  unfold _available_preset_modes. unfold bind at 1, get_self.
  destruct (_preset_mode_lookup self); [cbn; eauto|].
  destruct (available_hvac_modes_shape env self) as (H & self0 & Run).
  unfold bind at 1. rewrite Run.
  unfold bind, ask, get_self, put_self, ret.
  destruct (truthy (build_preset_modes (op_modes (device env)) (values H)));
    cbn; eauto.
Qed.

(** C10: when the preset table [_available_preset_modes] returns is
    empty, [set_preset_mode] raises [NotImplementedError] for every label,
    ["none"] included, with no device command and no mark on the
    coordinator, and [preset_modes] is [None]. *)
Theorem set_preset_mode_without_presets
    (env : Env) (self : Adapter) (label : string) :
  fst (fst (_available_preset_modes env self)) = Return [] ->
  exists self0,
    _available_preset_modes env self = (Return [], self0, [])
    /\ async_set_preset_mode label env self
       = (Raise NotImplementedError, self0, [])
    /\ preset_modes env self = (Return None, self0, []).
Proof.
  intro Empty.
  destruct (available_preset_modes_shape env self) as (P & self0 & Run).
  rewrite Run in Empty. simpl in Empty. injection Empty as ->.
  exists self0. split; [exact Run|].
  unfold async_set_preset_mode, preset_modes, bind. rewrite Run. cbn. auto.
Qed.

(** *** The cached tables stay sound *)

Lemma keeps_ret {A} (a : A) : keeps_caches (ret a).
Proof. intros env self OK. exact OK. Qed.

Lemma keeps_raise {A} (e : Exn) : keeps_caches (@raise A e).
Proof. intros env self OK. exact OK. Qed.

Lemma keeps_ask : keeps_caches ask.
Proof. intros env self OK. exact OK. Qed.

Lemma keeps_get_self : keeps_caches get_self.
Proof. intros env self OK. exact OK. Qed.

Lemma keeps_device_call c : keeps_caches (device_call c).
Proof. intros env self OK. exact OK. Qed.

Lemma keeps_async_set_updated : keeps_caches async_set_updated.
Proof. intros env self OK. exact OK. Qed.

Lemma keeps_bind {A B} (m : M A) (k : A -> M B) :
  keeps_caches m -> (forall a, keeps_caches (k a)) -> keeps_caches (bind m k).
Proof.
  intros Hm Hk env self OK. specialize (Hm env self OK).
  unfold after, bind in *.
  destruct (m env self) as [[[a|e] self1] evs]; simpl in *; [|exact Hm].
  specialize (Hk a env self1 Hm). unfold after in Hk.
  now destruct (k a env self1) as [[r self2] evs'].
Qed.

(** [self._attr_preset_mode = p] *)
Lemma keeps_set_attr {B} (p : option string) (k : M B) :
  keeps_caches k ->
  keeps_caches
    (bind get_self
       (fun self => bind (put_self (with_attr_preset_mode self p))
                         (fun _ => k))).
Proof.
  intros Hk env self OK.
  specialize (Hk env (with_attr_preset_mode self p)
                (caches_ok_with_attr _ _ p OK)).
  unfold after, bind, get_self, put_self in *.
  now destruct (k env (with_attr_preset_mode self p)) as [[r self2] evs'].
Qed.

Lemma keeps_clear_preset : keeps_caches clear_preset.
Proof.
  intros env self OK. unfold after. rewrite clear_preset_run. simpl.
  destruct (truthy_str (_attr_preset_mode self));
    [now apply caches_ok_with_attr | exact OK].
Qed.

Lemma keeps_available_hvac_modes : keeps_caches _available_hvac_modes.
Proof.
  intros env self OK. unfold after.
  rewrite (available_hvac_modes_run _ _ OK). now apply caches_ok_with_hvac.
Qed.

Lemma keeps_available_preset_modes : keeps_caches _available_preset_modes.
Proof.
  intros env self OK. unfold after.
  destruct (available_preset_modes_run _ _ OK) as (self' & Run & OK' & _).
  now rewrite Run.
Qed.

Lemma keeps_subscript {K V} `{PyEq K} (d : list (K * V)) (k : K) :
  keeps_caches (subscript d k).
Proof.
  unfold subscript. destruct (get d k); [apply keeps_ret | apply keeps_raise].
Qed.

Ltac keeps :=
  repeat first
    [ apply keeps_ret | apply keeps_raise | apply keeps_ask
    | apply keeps_get_self | apply keeps_device_call
    | apply keeps_async_set_updated | apply keeps_clear_preset
    | apply keeps_available_hvac_modes | apply keeps_available_preset_modes
    | apply keeps_subscript | apply keeps_set_attr
    | apply keeps_bind; [|intro]
    | match goal with
      | |- keeps_caches (if ?b then _ else _) => destruct b
      | |- keeps_caches (match ?x with _ => _ end) => destruct x
      end ].

Lemma keeps_hvac_mode : keeps_caches hvac_mode.
Proof. unfold hvac_mode. keeps. Qed.

Lemma keeps_async_set_hvac_mode m : keeps_caches (async_set_hvac_mode m).
Proof. unfold async_set_hvac_mode. keeps. Qed.

Lemma keeps_async_set_preset_mode l : keeps_caches (async_set_preset_mode l).
Proof.
  unfold async_set_preset_mode. keeps. apply keeps_async_set_hvac_mode.
Qed.

(** Every call keeps the cached tables sound. *)
Lemma step_caches_ok c env self :
  caches_ok (device env) self -> caches_ok (device env) (step c env self).
Proof.
  intro OK.
  destruct c; simpl;
    match goal with
    | |- caches_ok _ (after ?m _ _) =>
        assert (K : keeps_caches m)
          by (first [ apply keeps_hvac_mode
                    | apply keeps_async_set_hvac_mode
                    | apply keeps_async_set_preset_mode
                    | unfold hvac_modes, preset_modes, swing_mode,
                        swing_horizontal_mode, async_set_swing_mode,
                        async_set_swing_horizontal_mode, swing_modes,
                        swing_horizontal_modes, async_turn_on, async_turn_off;
                      keeps ]);
        exact (K _ _ OK)
    end.
Qed.

(** On every reachable entity the cached tables are sound. *)
Lemma reachable_caches_ok dev self : reachable dev self -> caches_ok dev self.
Proof.
  induction 1 as [|self c env _ IH E].
  - apply caches_ok_init.
  - subst dev. now apply step_caches_ok.
Qed.

(** *** The theorems at work on the example devices *)

Import Scenario.

(** The device with operating modes COOL, HEAT and ENERGY_SAVER: its HVAC
    table, its preset table, and what the two list properties show. *)
Example device0_tables :
  let env := env0 (snapshot true (Some "COOL"%string)) in
  fst (fst (_available_hvac_modes env (__init__ device0)))
  = Return [("HEAT"%string, HEAT); ("COOL"%string, COOL)]
  /\ fst (fst (_available_preset_modes env (__init__ device0)))
     = Return [("ENERGY_SAVER"%string, PRESET_ECO)]
  /\ fst (fst (hvac_modes env (__init__ device0))) = Return [OFF; HEAT; COOL]
  /\ fst (fst (preset_modes env (__init__ device0)))
     = Return (Some [PRESET_NONE; PRESET_ECO]).
Proof. repeat split. Qed.

Lemma available_hvac_modes_table_witness :
  caches_ok (device (env0 (snapshot true None))) (__init__ device0)
  /\ exists lookup self',
       _available_hvac_modes (env0 (snapshot true None)) (__init__ device0)
       = (Return lookup, self', [])
       /\ lookup <> [].
Proof.
  assert (OK : caches_ok (device (env0 (snapshot true None))) (__init__ device0))
    by (split; left; reflexivity).
  split; [exact OK|].
  destruct (available_hvac_modes_table _ _ OK) as (lookup & self' & Run & NE & _).
  exists lookup, self'. split; assumption.
Defined.

Lemma available_preset_modes_sound_witness :
  caches_ok (device env2) (__init__ device2)
  /\ exists presets self',
       _available_preset_modes env2 (__init__ device2)
       = (Return presets, self', [])
       /\ presets = [("ENERGY_SAVER"%string, PRESET_ECO)].
Proof.
  assert (OK : caches_ok (device env2) (__init__ device2))
    by (split; left; reflexivity).
  split; [exact OK|].
  destruct (available_preset_modes_sound _ _ OK)
    as (presets & self' & H & self'' & Run & RunH & _ & Last).
  exists presets, self'. split; [exact Run|].
  injection RunH as <- _.
  refine (proj1 (Last 0%nat 1%nat _ _ _ _ _ eq_refl eq_refl eq_refl _ _ _ _)).
  - lia.
  - simpl. auto.
  - simpl. auto.
  - simpl. auto.
  - simpl. auto.
Defined.

Lemma set_hvac_mode_round_trip_witness :
  let env := env0 (snapshot false (Some "HEAT"%string)) in
  let self0 :=
    with_hvac_mode_lookup (__init__ device0)
      [("HEAT"%string, HEAT); ("COOL"%string, COOL)] in
  caches_ok (device env) (__init__ device0)
  /\ exists evs self',
       async_set_hvac_mode COOL env (__init__ device0) = (Return tt, self0, evs)
       /\ hvac_mode (env0 (snapshot true (Some "COOL"%string))) self0
          = (Return COOL, self', []).
Proof.
  intros env self0.
  assert (OK : caches_ok (device env) (__init__ device0))
    by (split; left; reflexivity).
  split; [exact OK|].
  destruct (set_hvac_mode_round_trip env (__init__ device0) self0
              [("HEAT"%string, HEAT); ("COOL"%string, COOL)] COOL "COOL" OK)
    as (evs & Run & Iss & Read).
  - discriminate.
  - reflexivity.
  - reflexivity.
  - intro c. reflexivity.
  - destruct (Read (env0 (snapshot true (Some "COOL"%string))))
      as (self' & R).
    + reflexivity.
    + split; [reflexivity|]. rewrite Iss. reflexivity.
    + exists evs, self'. split; assumption.
Defined.

Lemma hvac_mode_off_witness :
  let env := env0 (snapshot false (Some "COOL"%string)) in
  let self := with_attr_preset_mode (__init__ device0) (Some PRESET_ECO) in
  (is_on (state env) = false \/ operation_mode (state env) = None)
  /\ exists self',
       hvac_mode env self = (Return OFF, self', [])
       /\ _attr_preset_mode self' = Some PRESET_NONE.
Proof.
  intros env self.
  assert (Off : is_on (state env) = false \/ operation_mode (state env) = None)
    by (left; reflexivity).
  split; [exact Off|].
  destruct (hvac_mode_off env self Off) as (self' & Run & E & _).
  exists self'. split; [exact Run | exact E].
Defined.

(** C4, as stated, fails: on an entity whose active-preset attribute is
    still unset ([None], as [__init__] leaves it), reading [hvac_mode] with
    the device off returns [OFF] and the attribute stays [None]; it is not
    reset to ["none"]. *)
Lemma hvac_mode_off_unset_preset_stays :
  let env := env0 (snapshot false (Some "COOL"%string)) in
  is_on (state env) = false
  /\ _attr_preset_mode (__init__ device0) = None
  /\ hvac_mode env (__init__ device0) = (Return OFF, __init__ device0, [])
  /\ _attr_preset_mode (after hvac_mode env (__init__ device0))
     <> Some PRESET_NONE.
Proof.
  cbv zeta. repeat split; try reflexivity. vm_compute. discriminate.
Qed.

Lemma set_hvac_mode_invalid_witness :
  let env := env0 (snapshot true (Some "COOL"%string)) in
  let H := [("HEAT"%string, HEAT); ("COOL"%string, COOL)] in
  DRY <> OFF
  /\ get (invert H) DRY = None
  /\ async_set_hvac_mode DRY env (__init__ device0)
     = (Raise (ValueError "Invalid hvac_mode [dry]"),
        with_hvac_mode_lookup (__init__ device0) H, []).
Proof.
  intros env H.
  assert (N : DRY <> OFF) by discriminate.
  assert (G : get (invert H) DRY = None) by reflexivity.
  split; [exact N|]. split; [exact G|].
  exact (proj1 (set_hvac_mode_invalid env (__init__ device0)
                  (with_hvac_mode_lookup (__init__ device0) H) H DRY
                  N eq_refl G)).
Defined.

Lemma set_swing_mode_idempotent_witness :
  In "UP"%string (or_empty (_attr_swing_modes (__init__ device2)))
  /\ async_set_swing_mode "UP" env2 (__init__ device2)
     = (Return tt, __init__ device2, [])
  /\ In "LEFT"%string
       (or_empty (_attr_swing_horizontal_modes (__init__ device2)))
  /\ async_set_swing_horizontal_mode "LEFT" env2 (__init__ device2)
     = (Return tt, __init__ device2, []).
Proof.
  assert (V : In "UP"%string (or_empty (_attr_swing_modes (__init__ device2))))
    by (simpl; auto).
  assert (Hz : In "LEFT"%string
                 (or_empty (_attr_swing_horizontal_modes (__init__ device2))))
    by (simpl; auto).
  split; [exact V|]. split; [|split; [exact Hz|]].
  - exact (proj1 (set_swing_mode_idempotent env2 (__init__ device2) "UP")
             V eq_refl).
  - exact (proj2 (set_swing_mode_idempotent env2 (__init__ device2) "LEFT")
             Hz eq_refl).
Defined.

Lemma init_horizontal_only_witness :
  let env := env0 (snapshot true (Some "COOL"%string)) in
  horizontal_swing_modes device0 <> []
  /\ vertical_swing_modes device0 = []
  /\ swing_modes env (__init__ device0)
     = (Return (Some ["LEFT"; "RIGHT"]%string), __init__ device0, [])
  /\ swing_horizontal_modes env (__init__ device0)
     = (Return None, __init__ device0, [])
  /\ swing_mode env (__init__ device0)
     = (Return (Some "LEFT"%string), __init__ device0, []).
Proof.
  intro env.
  assert (NE : horizontal_swing_modes device0 <> []) by discriminate.
  assert (EV : vertical_swing_modes device0 = []) by reflexivity.
  split; [exact NE|]. split; [exact EV|].
  exact (init_horizontal_only device0 env NE EV).
Defined.

Lemma set_preset_mode_without_presets_witness :
  let env := env1 (snapshot true (Some "FAN"%string)) in
  fst (fst (_available_preset_modes env (__init__ device1))) = Return []
  /\ exists self0,
       async_set_preset_mode PRESET_NONE env (__init__ device1)
       = (Raise NotImplementedError, self0, [])
       /\ preset_modes env (__init__ device1) = (Return None, self0, []).
Proof.
  intro env.
  assert (E : fst (fst (_available_preset_modes env (__init__ device1)))
              = Return []) by reflexivity.
  split; [exact E|].
  destruct (set_preset_mode_without_presets env (__init__ device1)
              PRESET_NONE E) as (self0 & _ & Set_ & Get).
  exists self0. split; assumption.
Defined.

End ACFacts.

(** ** The refrigerator compartments *)

Module RefrigeratorFacts.
Import Refrigerator.
Local Open Scope Z_scope.

(** *** [int] *)

Example int_of_str_examples :
  map int_of_str
    [ "3"; " -12 "; "+7"; "1_000"; "-0";
      "-"; ""; "3.5"; "1__0"; "_1"; "1_"; "+ 1"; "abc" ]%string
  = [ IntOk 3; IntOk (-12); IntOk 7; IntOk 1000; IntOk 0;
      IntValueError; IntValueError; IntValueError; IntValueError;
      IntValueError; IntValueError; IntValueError; IntValueError ].
Proof. reflexivity. Qed.

Example int_of_float_examples :
  map int_of_float [Finite 37 (-3); Finite (-37) (-3); Finite 3 2; NaN; Inf true]
  = [IntOk 4; IntOk (-4); IntOk 12; IntValueError; IntOverflowError].
Proof. reflexivity. Qed.

(** [int] of a finite float rounds towards zero. *)
Lemma int_of_float_truncates m e :
  exists z, int_of_float (Finite m e) = IntOk z /\ truncates m e z.
Proof.
  unfold int_of_float, truncates. eexists. split; [reflexivity|].
  destruct (0 <=? e) eqn:E; [reflexivity|].
  apply Z.leb_gt in E.
  assert (B : 0 < 2 ^ (- e)) by (apply Z.pow_pos_nonneg; lia).
  set (b := 2 ^ (- e)) in *.
  split; [|split].
  - rewrite <- (Z.abs_eq b) at 1 3 by lia.
    rewrite <- Z.quot_abs by lia. rewrite (Z.abs_eq b) by lia.
    rewrite Z.quot_div_nonneg by lia.
    split.
    + apply Z.mul_div_le. lia.
    + replace (Z.abs m / b + 1) with (Z.succ (Z.abs m / b)) by lia.
      apply Z.mul_succ_div_gt. lia.
  - intro P. apply Z.quot_pos; lia.
  - intro P. replace m with (- (- m)) by lia.
    rewrite Z.quot_opp_l by lia.
    assert (0 <= (- m) ÷ b) by (apply Z.quot_pos; lia). lia.
Qed.

(** [int] of a string returns or raises [ValueError], nothing else. *)
Lemma int_of_str_outcome s :
  (exists z, int_of_str s = IntOk z) \/ int_of_str s = IntValueError.
Proof.
  unfold int_of_str, int_of_digits.
  repeat match goal with
         | |- context [match ?x with _ => _ end] => destruct x
         end; eauto.
Qed.

Lemma has_digit_skip_spaces s :
  has_digit s = false -> has_digit (skip_spaces s) = false.
Proof.
  induction s as [|c r IH]; simpl; [auto|].
  destruct (digit_value c) eqn:D; [discriminate|]. intro Hr.
  destruct (Py_ISSPACE c); [auto|]. simpl. now rewrite D.
Qed.

Lemma scan_digits_no_digit s : forall p digits acc,
  has_digit s = false ->
  match scan_digits s p digits acc with
  | Some (digits', _, _) => digits' = digits
  | None => True
  end.
Proof.
  induction s as [|c r IH]; intros p digits acc; simpl.
  - now destruct p.
  - destruct (digit_value c) eqn:D; [discriminate|]. intro Hr.
    destruct (is_underscore c).
    + destruct p; [exact I|]. now apply IH.
    + now destruct p.
Qed.

Lemma int_of_digits_no_digit negative s :
  has_digit s = false -> int_of_digits negative s = IntValueError.
Proof.
  intro N. unfold int_of_digits. destruct s as [|c r]; [reflexivity|].
  destruct (is_underscore c); [reflexivity|].
  pose proof (scan_digits_no_digit (String c r) false 0 0 N) as Sc.
  destruct (scan_digits (String c r) false 0 0) as [[[digits v] rest]|];
    [|reflexivity].
  subst digits. reflexivity.
Qed.

(** A string without a digit is no integer literal. *)
Lemma int_of_str_no_digit s :
  has_digit s = false -> int_of_str s = IntValueError.
Proof.
  intro N. apply has_digit_skip_spaces in N. unfold int_of_str.
  destruct (skip_spaces s) as [|c r] eqn:E; [reflexivity|].
  assert (Hr : has_digit r = false).
  { simpl in N. now destruct (digit_value c). }
  destruct (Nat.eqb (nat_of_ascii c) 43);
    [|destruct (Nat.eqb (nat_of_ascii c) 45)];
    now apply int_of_digits_no_digit.
Qed.

(** *** [target_temperature] *)


Import Scenario.



End RefrigeratorFacts.

(** ** More of the air-conditioner entity *)

Module ACMoreFacts.
Import PyDict PyDictFacts AC ACFacts ACMore.
Local Open Scope list_scope.
Local Open Scope py_scope.

(** *** Memoisation *)

(** X1: both tables are memoised.  After a first call the same table is
    returned again and the entity no longer changes, whatever the device
    reports by then. *)
Theorem tables_memoized (env env' : Env) (self : Adapter) :
  (exists H self1,
     _available_hvac_modes env self = (Return H, self1, [])
     /\ _available_hvac_modes env' self1 = (Return H, self1, []))
  /\ (exists P self1,
        _available_preset_modes env self = (Return P, self1, [])
        /\ _available_preset_modes env' self1 = (Return P, self1, [])).
Proof.
  split.
  - unfold _available_hvac_modes, bind, get_self, put_self, ask, ret.
    destruct (_hvac_mode_lookup self) eqn:E; cbn.
    + exists l, self. rewrite E. auto.
    + eexists. eexists. split; reflexivity.
  - unfold _available_preset_modes at 1. unfold bind at 1, get_self.
    destruct (_preset_mode_lookup self) eqn:E.
    + exists l, self. split; [reflexivity|].
      unfold _available_preset_modes, bind, get_self. now rewrite E.
    + destruct (available_hvac_modes_shape env self) as (H & self0 & Run).
      unfold bind at 1. rewrite Run.
      unfold bind, ask, get_self, put_self, ret.
      destruct (truthy (build_preset_modes (op_modes (device env)) (values H)));
        cbn; eexists; eexists; (split; [reflexivity|]);
        unfold _available_preset_modes, bind, get_self; reflexivity.
Qed.

(** *** The list of HVAC modes *)

Lemma NoDup_values_filter {K V} (f : K * V -> bool) (l : list (K * V)) :
  NoDup (values l) -> NoDup (values (filter f l)).
Proof.
  induction l as [|[k v] r IH]; simpl; [auto|].
  intro ND. inversion ND as [|? ? Hv ND']; subst.
  destruct (f (k, v)); simpl; [|auto].
  constructor; [|auto]. intro F. apply Hv.
  unfold values in *. apply in_map_iff in F as ([k1 v1] & E & Hin).
  apply filter_In in Hin as [Hin _]. apply in_map_iff. eauto.
Qed.

Lemma build_hvac_mode_lookup_values S :
  let modes := values (build_hvac_mode_lookup S) in
  modes <> [] /\ NoDup (OFF :: modes).
Proof.
  cbv zeta. rewrite build_hvac_mode_lookup_eq.
  assert (ND : NoDup (values HVAC_MODE_LOOKUP)).
  { rewrite HVAC_MODE_LOOKUP_items. simpl.
    repeat (constructor; [simpl; intuition discriminate|]). constructor. }
  assert (NOff : ~ In OFF (values (restriction S))).
  { intro F. unfold values in F. apply in_map_iff in F as ([k v] & E & Hin).
    apply filter_In in Hin as [Hin _]. simpl in E. subst v.
    rewrite HVAC_MODE_LOOKUP_items in Hin. simpl in Hin.
    intuition discriminate. }
  destruct (restriction S) as [|kv r] eqn:E.
  - split; [discriminate|]. simpl.
    repeat (constructor; [simpl; intuition discriminate|]). constructor.
  - split; [discriminate|].
    constructor; [exact NOff|]. rewrite <- E. now apply NoDup_values_filter.
Qed.

(** X2: [hvac_modes] is [OFF] followed by at least one other mode, and
    lists no mode twice. *)
Theorem hvac_modes_distinct (env : Env) (self : Adapter) :
  caches_ok (device env) self ->
  exists modes self',
    hvac_modes env self = (Return (OFF :: modes), self', [])
    /\ modes <> []
    /\ NoDup (OFF :: modes).
Proof.
  intro OK. unfold hvac_modes.
  erewrite bind_Return by (apply available_hvac_modes_run, OK).
  cbn. eexists. eexists. split; [reflexivity|].
  apply build_hvac_mode_lookup_values.
Qed.

(** X3: [set_hvac_mode] accepts exactly the advertised modes: it raises
    [ValueError] if and only if the requested mode is not in [hvac_modes]. *)
Theorem set_hvac_mode_accepts_advertised
    (env : Env) (self : Adapter) (m : HVACMode) :
  exists modes self1 r self2 evs,
    hvac_modes env self = (Return modes, self1, [])
    /\ async_set_hvac_mode m env self = (r, self2, evs)
    /\ ((exists msg, r = Raise (ValueError msg)) <-> ~ In m modes).
Proof.
  destruct (available_hvac_modes_shape env self) as (H & self0 & Run).
  unfold hvac_modes, async_set_hvac_mode.
  erewrite bind_Return by exact Run. cbn [ret app].
  destruct (py_eqb m OFF) eqn:E.
  - apply py_eqb_eq in E. subst m.
    unfold bind, device_call, async_set_updated.
    destruct (command_fails env (power false)); cbn;
      do 5 eexists; (split; [reflexivity|]); (split; [reflexivity|]);
      (split; [intros [msg [=]] | intro N; exfalso; apply N; now left]).
  - apply py_eqb_neq in E. erewrite bind_Return by exact Run.
    destruct (get (invert H) m) as [code|] eqn:G.
    + assert (Hin : In m (values H)).
      { apply get_invert in G. unfold values.
        change m with (snd (code, m)). now apply in_map. }
      unfold bind, ask, device_call, async_set_updated, ret.
      destruct (is_on (state env)), (py_eqb code HVAC_MODE_NONE); cbn;
        repeat match goal with
               | |- context [command_fails env ?c] =>
                   destruct (command_fails env c); cbn
               end;
        do 5 eexists; (split; [reflexivity|]); (split; [reflexivity|]);
        (split; [intros [msg [=]] | intro N; exfalso; apply N; now right]).
    + apply get_invert_None in G. cbn.
      do 5 eexists. split; [reflexivity|]. split; [reflexivity|].
      split; [|eauto]. intros _ [F|F]; [congruence | contradiction].
Qed.

(** Stated once more below; this form is the one later proofs use. *)
Lemma set_hvac_mode_commands_run (env : Env) (self self0 : Adapter)
    (H : list (string * HVACMode)) (m : HVACMode) (code : string) :
  m <> OFF ->
  _available_hvac_modes env self = (Return H, self0, []) ->
  get (invert H) m = Some code ->
  let plan :=
    (if is_on (state env) then [] else [power true])
    ++ (if py_eqb code HVAC_MODE_NONE then [] else [set_op_mode code]) in
  async_set_hvac_mode m env self
  = (fst (issue (command_fails env) plan), self0,
     snd (issue (command_fails env) plan)).
Proof.
  intros N Run G plan. subst plan.
  assert (E : py_eqb m OFF = false) by now apply py_eqb_neq.
  unfold async_set_hvac_mode. rewrite E.
  erewrite bind_Return by exact Run. rewrite G.
  unfold bind, ask, device_call, async_set_updated, ret.
  destruct (is_on (state env)), (py_eqb code HVAC_MODE_NONE); cbn;
    repeat match goal with
           | |- context [command_fails env ?c] =>
               destruct (command_fails env c); cbn
           end; reflexivity.
Qed.

(** X4: a resolved [set_hvac_mode] powers the device on first, and only
    when the snapshot reports it off; then it sets the operating mode,
    unless that is the sentinel; it stops at the first command that fails,
    and marks the coordinator updated only when none did. *)
Theorem set_hvac_mode_commands (env : Env) (self self0 : Adapter)
    (H : list (string * HVACMode)) (m : HVACMode) (code : string) :
  m <> OFF ->
  _available_hvac_modes env self = (Return H, self0, []) ->
  get (invert H) m = Some code ->
  let plan :=
    (if is_on (state env) then [] else [power true])
    ++ (if py_eqb code HVAC_MODE_NONE then [] else [set_op_mode code]) in
  async_set_hvac_mode m env self
  = (fst (issue (command_fails env) plan), self0,
     snd (issue (command_fails env) plan)).
Proof. apply set_hvac_mode_commands_run. Qed.

(** *** The preset table, case by case *)

Lemma build_preset_mode_lookup_cases S :
  let H := build_hvac_mode_lookup S in
  build_preset_mode_lookup S =
    if list_contains (values H) COOL then
      if list_contains S "ENERGY_SAVER"
      then [("ENERGY_SAVER"%string, PRESET_ECO)]
      else if list_contains S "ENERGY_SAVING"
           then [("ENERGY_SAVING"%string, PRESET_ECO)]
           else []
    else [].
Proof.
  cbv zeta. unfold build_preset_mode_lookup. rewrite build_preset_modes_eq.
  destruct (list_contains (values (build_hvac_mode_lookup S)) COOL),
    (list_contains S "ENERGY_SAVER"), (list_contains S "ENERGY_SAVING");
    reflexivity.
Qed.

(** COOL is a value of the HVAC table exactly when the device has the
    COOL operating mode. *)
Lemma COOL_in_table S :
  In COOL (values (build_hvac_mode_lookup S)) <-> In "COOL"%string S.
Proof.
  rewrite build_hvac_mode_lookup_eq. split.
  - intro Hin. destruct (restriction S) eqn:E.
    + simpl in Hin. intuition discriminate.
    + rewrite <- E in Hin. unfold values in Hin.
      apply in_map_iff in Hin as ([k v] & Ev & Hin). simpl in Ev. subst v.
      apply filter_In in Hin as [Hin Hk]. simpl in Hk.
      apply list_contains_In in Hk.
      rewrite HVAC_MODE_LOOKUP_items in Hin. simpl in Hin.
      repeat (destruct Hin as [Hin|Hin]; [try discriminate Hin|]);
        try contradiction.
      injection Hin as <-. exact Hk.
  - intro HS.
    assert (Hr : In ("COOL"%string, COOL) (restriction S)).
    { apply filter_In. split.
      - rewrite HVAC_MODE_LOOKUP_items. simpl. auto 6.
      - simpl. now apply list_contains_In. }
    destruct (restriction S) eqn:E; [contradiction|].
    unfold values. change COOL with (snd ("COOL"%string, COOL)).
    now apply in_map.
Qed.

(** What a call of [_available_preset_modes] leaves behind, in full. *)
Lemma available_preset_modes_run_full env self :
  caches_ok (device env) self ->
  let P := build_preset_mode_lookup (op_modes (device env)) in
  exists self',
    _available_preset_modes env self = (Return P, self', [])
    /\ caches_ok (device env) self'
    /\ _preset_mode_lookup self' = Some P
    /\ swing_slots self' = swing_slots self
    /\ (preset_attr_ok self -> preset_attr_ok self')
    /\ (_preset_mode_lookup self = None -> P <> [] ->
        _attr_preset_mode self' = Some PRESET_NONE)
    /\ (_preset_mode_lookup self <> None \/ P = [] ->
        _attr_preset_mode self' = _attr_preset_mode self).
Proof.
  intros OK P. pose proof OK as [_ [E|E]].
  - unfold _available_preset_modes, bind at 1, get_self. rewrite E.
    unfold bind at 1. rewrite (available_hvac_modes_run _ _ OK).
    unfold bind, ask, get_self, put_self, ret. cbv beta.
    subst P. unfold caches_ok, build_preset_mode_lookup.
    rewrite !build_preset_modes_eq.
    destruct OK as [Hh _].
    destruct (list_contains
                (values (build_hvac_mode_lookup (op_modes (device env))))
                COOL),
      (list_contains (op_modes (device env)) "ENERGY_SAVER"),
      (list_contains (op_modes (device env)) "ENERGY_SAVING");
      cbn; eexists; (split; [reflexivity|]);
      (split; [split; cbn; auto|]);
      (split; [reflexivity|]); (split; [reflexivity|]);
      unfold preset_attr_ok; cbn; rewrite ?E;
      repeat split; eauto; try congruence;
      intros [F|F]; congruence.
  - exists self. unfold _available_preset_modes, bind, get_self. rewrite E.
    cbn. repeat split; auto; try apply OK. intros F. congruence.
Qed.

(** *** Reading [hvac_mode], in full *)

Lemma hvac_mode_on_run env self code :
  caches_ok (device env) self ->
  is_on (state env) = true ->
  operation_mode (state env) = Some code ->
  let H := build_hvac_mode_lookup (op_modes (device env)) in
  let P := build_preset_mode_lookup (op_modes (device env)) in
  forall self1,
    _available_preset_modes env self = (Return P, self1, []) ->
    caches_ok (device env) self1 ->
    hvac_mode env self =
      match get P code with
      | Some label =>
          match get PRESET_MODE_LOOKUP code with
          | Some entry =>
              (Return (hvac entry),
               with_attr_preset_mode self1 (Some label), [])
          | None =>
              (Raise KeyError, with_attr_preset_mode self1 (Some label), [])
          end
      | None =>
          (Return (get_default H code AUTO),
           with_hvac_mode_lookup (cleared self1) H, [])
      end.
Proof.
  intros OK On Op H P self1 Run OK1.
  unfold hvac_mode, bind at 1, ask. rewrite On, Op.
  unfold bind at 1. rewrite Run. unfold contains.
  destruct (get P code) as [label|] eqn:G.
  - unfold subscript. rewrite G.
    unfold bind, ret, get_self, put_self, raise.
    destruct (get PRESET_MODE_LOOKUP code); reflexivity.
  - unfold bind at 1. rewrite clear_preset_run. fold (cleared self1).
    unfold bind at 1. rewrite available_hvac_modes_run.
    + reflexivity.
    + unfold cleared. destruct (truthy_str (_attr_preset_mode self1));
        [apply caches_ok_with_attr|]; exact OK1.
Qed.

(** X5: on an entity with sound caches, reading [hvac_mode] never raises
    and issues nothing, and the mode it returns is [AUTO] or one of
    [hvac_modes]. *)
Theorem hvac_mode_in_range (env : Env) (self : Adapter) :
  caches_ok (device env) self ->
  exists m self' modes self'',
    hvac_mode env self = (Return m, self', [])
    /\ hvac_modes env self = (Return modes, self'', [])
    /\ (m = AUTO \/ In m modes).
Proof.
  intro OK.
  set (H := build_hvac_mode_lookup (op_modes (device env))).
  assert (RunM : hvac_modes env self
                 = (Return (OFF :: values H),
                    with_hvac_mode_lookup self H, [])).
  { unfold hvac_modes.
    erewrite bind_Return by (apply available_hvac_modes_run, OK).
    reflexivity. }
  rewrite RunM.
  destruct (is_on (state env)) eqn:On;
    [destruct (operation_mode (state env)) as [code|] eqn:Op|].
  - destruct (available_preset_modes_run_full env self OK)
      as (self1 & Run & OK1 & _).
    rewrite (hvac_mode_on_run env self code OK On Op self1 Run OK1).
    destruct (get (build_preset_mode_lookup (op_modes (device env))) code)
      as [label|] eqn:G.
    + apply get_In, build_preset_mode_lookup_In in G
        as (_ & entry & GE & _ & Hh).
      rewrite GE. do 4 eexists. split; [reflexivity|].
      split; [reflexivity|]. right. right. exact Hh.
    + do 4 eexists. split; [reflexivity|]. split; [reflexivity|].
      unfold get_default. fold H.
      destruct (get H code) as [v|] eqn:GH; [|now left].
      right. right. apply get_In in GH. unfold values.
      change v with (snd (code, v)). now apply in_map.
  - rewrite hvac_mode_off_run by (now right).
    do 4 eexists. split; [reflexivity|]. split; [reflexivity|].
    right. now left.
  - rewrite hvac_mode_off_run by (now left).
    do 4 eexists. split; [reflexivity|]. split; [reflexivity|].
    right. now left.
Qed.

(** Stated once more below; this form is the one later proofs use. *)
Lemma hvac_mode_preset_run (env : Env) (self : Adapter) (code label : string) :
  caches_ok (device env) self ->
  is_on (state env) = true ->
  operation_mode (state env) = Some code ->
  get (build_preset_mode_lookup (op_modes (device env))) code = Some label ->
  exists entry self',
    get PRESET_MODE_LOOKUP code = Some entry
    /\ preset entry = label
    /\ hvac_mode env self = (Return (hvac entry), self', [])
    /\ _attr_preset_mode self' = Some label.
Proof.
  intros OK On Op G.
  destruct (available_preset_modes_run_full env self OK)
    as (self1 & Run & OK1 & _).
  rewrite (hvac_mode_on_run env self code OK On Op self1 Run OK1), G.
  apply get_In, build_preset_mode_lookup_In in G
    as (_ & entry & GE & EP & _).
  rewrite GE. exists entry. eexists. repeat split; auto.
Qed.

(** X6: with the device on in an operating mode that is a preset of the
    device, [hvac_mode] returns the HVAC mode [PRESET_MODE_LOOKUP]
    associates with it, and the active preset becomes that preset's
    label. *)
Theorem hvac_mode_preset (env : Env) (self : Adapter) (code label : string) :
  caches_ok (device env) self ->
  is_on (state env) = true ->
  operation_mode (state env) = Some code ->
  get (build_preset_mode_lookup (op_modes (device env))) code = Some label ->
  exists entry self',
    get PRESET_MODE_LOOKUP code = Some entry
    /\ preset entry = label
    /\ hvac_mode env self = (Return (hvac entry), self', [])
    /\ _attr_preset_mode self' = Some label.
Proof. apply hvac_mode_preset_run. Qed.

(** X7: [preset_modes] is [None] or [["none", "eco"]]; presets are
    offered exactly when the device has the COOL operating mode and one of
    the two energy-saving modes. *)
Theorem preset_modes_offered (env : Env) (self : Adapter) :
  caches_ok (device env) self ->
  let S := op_modes (device env) in
  exists r self',
    preset_modes env self = (Return r, self', [])
    /\ (r = None \/ r = Some [PRESET_NONE; PRESET_ECO])
    /\ (r <> None <->
        In "COOL"%string S
        /\ (In "ENERGY_SAVER"%string S \/ In "ENERGY_SAVING"%string S)).
Proof.
  intros OK S.
  destruct (available_preset_modes_run_full env self OK)
    as (self1 & Run & _).
  unfold preset_modes. erewrite bind_Return by exact Run.
  fold S. rewrite build_preset_mode_lookup_cases.
  destruct (list_contains (values (build_hvac_mode_lookup S)) COOL) eqn:EC,
    (list_contains S "ENERGY_SAVER") eqn:E1,
    (list_contains S "ENERGY_SAVING") eqn:E2;
    cbn; do 2 eexists; (split; [reflexivity|]); (split; [auto|]);
    rewrite <- (COOL_in_table S), <- !list_contains_In, EC, E1, E2;
    split; intros; try congruence; intuition congruence.
Qed.

(** *** Reasoning on runs *)

Lemma post_ret {A} (a : A) env self Q :
  Q (Return a) self [] -> post (ret a) env self Q.
Proof. exact (fun q => q). Qed.

Lemma post_raise {A} (e : Exn) env self Q :
  Q (Raise e) self [] -> post (@raise A e) env self Q.
Proof. exact (fun q => q). Qed.

Lemma post_get_self env self Q :
  Q (Return self) self [] -> post get_self env self Q.
Proof. exact (fun q => q). Qed.

Lemma post_put_self s env self Q :
  Q (Return tt) s [] -> post (put_self s) env self Q.
Proof. exact (fun q => q). Qed.

Lemma post_ask env self Q : Q (Return env) self [] -> post ask env self Q.
Proof. exact (fun q => q). Qed.

Lemma post_device_call c env self (Q : Outcome unit -> _ -> _ -> Prop) :
  Q (if command_fails env c then Raise (DeviceError c) else Return tt)
    self [Cmd c] ->
  post (device_call c) env self Q.
Proof. exact (fun q => q). Qed.

Lemma post_async_set_updated env self Q :
  Q (Return tt) self [SetUpdated] -> post async_set_updated env self Q.
Proof. exact (fun q => q). Qed.

Lemma post_bind {A B} (m : M A) (k : A -> M B) env self Q :
  post m env self
    (fun r s evs =>
       match r with
       | Return a => post (k a) env s (fun r' s' evs' => Q r' s' (evs ++ evs'))
       | Raise e => Q (Raise e) s evs
       end) ->
  post (bind m k) env self Q.
Proof.
  unfold post, bind. destruct (m env self) as [[[a|e] s] evs]; [|auto].
  now destruct (k a env s) as [[r' s'] evs'].
Qed.

Lemma post_conseq {A} (m : M A) env self (Q Q' : _ -> _ -> _ -> Prop) :
  post m env self Q ->
  (forall r s evs, Q r s evs -> Q' r s evs) ->
  post m env self Q'.
Proof.
  unfold post. destruct (m env self) as [[r s] evs]. auto.
Qed.

Lemma post_run {A} (m : M A) env self Q r s evs :
  post m env self Q -> m env self = (r, s, evs) -> Q r s evs.
Proof. unfold post. intros HQ E. now rewrite E in HQ. Qed.

Lemma post_of_run {A} (m : M A) env self (Q : _ -> _ -> _ -> Prop) r s evs :
  m env self = (r, s, evs) -> Q r s evs -> post m env self Q.
Proof. unfold post. now intros ->. Qed.

Lemma post_after {A} (m : M A) env self (P : Adapter -> Prop) :
  post m env self (fun _ s _ => P s) -> P (after m env self).
Proof.
  unfold post, after. now destruct (m env self) as [[r s] evs].
Qed.

Ltac head_of t :=
  lazymatch t with
  | ?f _ => head_of f
  | _ => t
  end.

Ltac wp1 :=
  lazymatch goal with
  | |- post (bind _ _) _ _ _ => apply post_bind
  | |- post (ret _) _ _ _ => apply post_ret
  | |- post (raise _) _ _ _ => apply post_raise
  | |- post get_self _ _ _ => apply post_get_self
  | |- post (put_self _) _ _ _ => apply post_put_self
  | |- post ask _ _ _ => apply post_ask
  | |- post (device_call ?c) ?env _ _ =>
      apply post_device_call; destruct (command_fails env c) eqn:?
  | |- post async_set_updated _ _ _ => apply post_async_set_updated
  | |- post (if ?b then _ else _) _ _ _ => destruct b eqn:?
  | |- post (match ?x with _ => _ end) _ _ _ => destruct x eqn:?
  | |- post ?m _ _ _ => let h := head_of m in unfold h
  end; cbv beta iota.

Ltac wp := repeat wp1.

(** *** Invariants of the reachable entities *)

(** No call changes the swing attributes. *)
Lemma step_swing_slots c env self :
  swing_slots (step c env self) = swing_slots self.
Proof.
  destruct c; cbn [step];
    apply (post_after _ _ _ (fun s => swing_slots s = swing_slots self));
    wp; reflexivity.
Qed.

Lemma reachable_slots_ok dev self : reachable dev self -> slots_ok dev self.
Proof.
  unfold slots_ok. induction 1 as [|self c env _ IH E];
    [reflexivity | now rewrite step_swing_slots].
Qed.

(** X8: the coordinator is marked updated only by calls that went
    through.  Whatever is asked of the entity, a call that raises has not
    marked the coordinator updated, and a call that returns has marked it
    if it issued any device command. *)
Theorem updated_only_on_success (c : Call) (env : Env) (self : Adapter) :
  post (perform c) env self
    (fun r _ evs =>
       match r with
       | Raise _ => marked_updated evs = false
       | Return _ => commands evs = [] \/ marked_updated evs = true
       end).
Proof.
  destruct c; cbn [perform]; wp; cbn; auto.
Qed.

(** *** The active preset *)

Lemma preset_attr_ok_with_hvac self t :
  preset_attr_ok self -> preset_attr_ok (with_hvac_mode_lookup self t).
Proof. exact (fun ok => ok). Qed.

Lemma preset_attr_ok_cleared self :
  preset_attr_ok self -> preset_attr_ok (cleared self).
Proof.
  unfold cleared, preset_attr_ok.
  destruct (truthy_str (_attr_preset_mode self)) eqn:T; [|auto]. cbn.
  destruct (_preset_mode_lookup self) as [[|item presets]|];
    intro OK; try (rewrite OK in T; discriminate T).
  exists PRESET_NONE. auto.
Qed.

Lemma preset_attr_ok_label self presets code label :
  _preset_mode_lookup self = Some presets ->
  get presets code = Some label ->
  preset_attr_ok (with_attr_preset_mode self (Some label)).
Proof.
  intros E G. unfold preset_attr_ok. cbn. rewrite E.
  destruct presets as [|item presets]; [discriminate G|].
  exists label. split; [reflexivity|]. right.
  apply get_In in G. unfold values.
  change label with (snd (code, label)). now apply in_map.
Qed.

Lemma hvac_mode_preset_attr_ok env self :
  entity_ok (device env) self -> preset_attr_ok (after hvac_mode env self).
Proof.
  intros [OK PK]. unfold after.
  destruct (is_on (state env)) eqn:On;
    [destruct (operation_mode (state env)) as [code|] eqn:Op|].
  - destruct (available_preset_modes_run_full env self OK)
      as (self1 & Run & OK1 & EP & _ & PK1 & _).
    rewrite (hvac_mode_on_run env self code OK On Op self1 Run OK1).
    destruct (get (build_preset_mode_lookup (op_modes (device env))) code)
      as [label|] eqn:G.
    + destruct (get PRESET_MODE_LOOKUP code); cbn;
        now apply preset_attr_ok_label with (1 := EP) (2 := G).
    + cbn. apply preset_attr_ok_with_hvac, preset_attr_ok_cleared. auto.
  - rewrite hvac_mode_off_run by (now right). cbn.
    now apply preset_attr_ok_cleared.
  - rewrite hvac_mode_off_run by (now left). cbn.
    now apply preset_attr_ok_cleared.
Qed.

Lemma set_preset_mode_preset_attr_ok env self label :
  entity_ok (device env) self ->
  preset_attr_ok (after (async_set_preset_mode label) env self).
Proof.
  intros [OK PK].
  destruct (available_preset_modes_run_full env self OK)
    as (self1 & Run & OK1 & EP & _ & PK1 & _).
  specialize (PK1 PK).
  apply (post_after _ _ _ preset_attr_ok).
  unfold async_set_preset_mode. apply post_bind.
  eapply post_of_run; [exact Run|]. cbv beta iota.
  wp; first [exact PK1 | apply preset_attr_ok_with_hvac; exact PK1].
Qed.

Lemma step_entity_ok c env self :
  entity_ok (device env) self -> entity_ok (device env) (step c env self).
Proof.
  intro EK. split; [apply step_caches_ok, EK|].
  destruct c; cbn [step].
  - now apply hvac_mode_preset_attr_ok.
  - apply (post_after _ _ _ preset_attr_ok). wp; apply EK.
  - destruct EK as [OK PK].
    destruct (available_preset_modes_run_full env self OK)
      as (self1 & Run & OK1 & EP & _ & PK1 & _).
    apply (post_after _ _ _ preset_attr_ok). unfold preset_modes.
    apply post_bind. eapply post_of_run; [exact Run|]. cbv beta iota.
    wp; auto.
  - apply (post_after _ _ _ preset_attr_ok). wp; apply EK.
  - apply (post_after _ _ _ preset_attr_ok). wp; apply EK.
  - apply (post_after _ _ _ preset_attr_ok). wp;
      first [apply EK | apply preset_attr_ok_with_hvac; apply EK].
  - now apply set_preset_mode_preset_attr_ok.
  - apply (post_after _ _ _ preset_attr_ok). wp; apply EK.
  - apply (post_after _ _ _ preset_attr_ok). wp; apply EK.
  - apply (post_after _ _ _ preset_attr_ok). wp; apply EK.
  - apply (post_after _ _ _ preset_attr_ok). wp; apply EK.
Qed.

(** Stated once more below; this form is the one later proofs use. *)
Lemma reachable_entity_ok_run (dev : Device) (self : Adapter) :
  reachable dev self ->
  entity_ok dev self /\ slots_ok dev self.
Proof.
  intro R. split; [|now apply reachable_slots_ok].
  induction R as [|self c env _ IH E].
  - split; [apply caches_ok_init | reflexivity].
  - subst dev. now apply step_entity_ok.
Qed.

(** X9: on every reachable entity the cached tables are those of the
    device, the active preset agrees with the preset table, and the swing
    attributes are the ones [__init__] set. *)
Theorem reachable_entity_ok (dev : Device) (self : Adapter) :
  reachable dev self ->
  entity_ok dev self /\ slots_ok dev self.
Proof. apply reachable_entity_ok_run. Qed.

(** X10: the active preset is always one of the advertised presets.  On
    a reachable entity, when [preset_modes] returns a list the active
    preset is then one of its members, and when it returns [None] the
    active preset is unset. *)
Theorem preset_mode_advertised (env : Env) (self : Adapter) :
  reachable (device env) self ->
  exists r self',
    preset_modes env self = (Return r, self', [])
    /\ match r with
       | Some labels =>
           exists p, preset_mode env self' = (Return (Some p), self', [])
                     /\ In p labels
       | None => preset_mode env self' = (Return None, self', [])
       end.
Proof.
  intro R. destruct (reachable_entity_ok_run _ _ R) as [[OK PK] _].
  destruct (available_preset_modes_run_full env self OK)
    as (self1 & Run & OK1 & EP & _ & PK1 & _).
  specialize (PK1 PK). unfold preset_modes.
  erewrite bind_Return by exact Run.
  unfold preset_attr_ok in PK1. rewrite EP in PK1.
  unfold preset_mode, bind, get_self, ret.
  destruct (build_preset_mode_lookup (op_modes (device env)))
    as [|item presets]; cbn.
  - do 2 eexists. split; [reflexivity|]. now rewrite PK1.
  - destruct PK1 as (label & E & Hl). do 2 eexists. split; [reflexivity|].
    exists label. rewrite E. split; [reflexivity|].
    destruct Hl as [->|Hl]; [now left | now right].
Qed.

(** *** Setting a preset *)

Lemma issue_outcome fails plan :
  fst (issue fails plan) = Return tt
  \/ exists c, In c plan /\ fst (issue fails plan) = Raise (DeviceError c).
Proof.
  induction plan as [|c r IH]; simpl; [now left|].
  destruct (fails c); simpl; [right; eauto|].
  destruct (issue fails r) as [o evs]. simpl in *.
  destruct IH as [IH|(c' & Hin & IH)]; [now left | right; eauto].
Qed.

Lemma issue_commands fails plan (P : DevCmd -> Prop) :
  Forall P plan -> Forall P (commands (snd (issue fails plan))).
Proof.
  induction 1 as [|c r Hc Hr IH]; simpl; [constructor|].
  destruct (fails c); simpl; [now repeat constructor|].
  destruct (issue fails r) as [o evs]. simpl in *. now constructor.
Qed.

Lemma issue_no_failure fails plan :
  (forall c, fails c = false) ->
  issue fails plan = (Return tt, map Cmd plan ++ [SetUpdated]).
Proof.
  intro NoFail. induction plan as [|c r IH]; simpl; [reflexivity|].
  now rewrite NoFail, IH.
Qed.

Lemma build_preset_mode_lookup_NoDup S :
  NoDup (keys (build_preset_mode_lookup S)).
Proof.
  rewrite build_preset_mode_lookup_cases.
  destruct (list_contains (values (build_hvac_mode_lookup S)) COOL),
    (list_contains S "ENERGY_SAVER"), (list_contains S "ENERGY_SAVING");
    simpl; repeat constructor; simpl; tauto.
Qed.

(** Only the COOL operating mode stands for the COOL HVAC mode. *)
Lemma COOL_resolves S :
  In "COOL"%string S ->
  get (invert (build_hvac_mode_lookup S)) COOL = Some "COOL"%string.
Proof.
  intro HS. apply COOL_in_table in HS.
  destruct (get (invert (build_hvac_mode_lookup S)) COOL) as [code|] eqn:G.
  - f_equal. apply get_invert in G.
    rewrite build_hvac_mode_lookup_eq in G.
    destruct (restriction S) eqn:E.
    + simpl in G. intuition discriminate.
    + rewrite <- E in G. apply filter_In in G as [G _].
      rewrite HVAC_MODE_LOOKUP_items in G. simpl in G.
      repeat (destruct G as [G|G]; [try discriminate G|]);
        try contradiction.
      now injection G as <-.
  - apply get_invert_None in G. contradiction.
Qed.

Lemma presets_need_COOL S :
  build_preset_mode_lookup S <> [] -> In "COOL"%string S.
Proof.
  rewrite build_preset_mode_lookup_cases. intro NE.
  apply COOL_in_table, list_contains_In.
  destruct (list_contains (values (build_hvac_mode_lookup S)) COOL);
    [reflexivity | contradiction].
Qed.

(** An operating mode the HVAC table resolves to, other than the sentinel,
    is one of the device's. *)
Lemma resolved_code_in_S S m code :
  get (invert (build_hvac_mode_lookup S)) m = Some code ->
  code <> HVAC_MODE_NONE ->
  In code S.
Proof.
  intros G N. apply get_invert in G. rewrite build_hvac_mode_lookup_eq in G.
  destruct (restriction S) eqn:E.
  - destruct G as [[= <- _]|[]]. now contradiction N.
  - rewrite <- E in G. apply filter_In in G as [_ G]. simpl in G.
    now apply list_contains_In.
Qed.

(** Stated once more below; this form is the one later proofs use. *)
Lemma set_preset_mode_commands_run (env : Env) (self : Adapter) (label : string) :
  caches_ok (device env) self ->
  label <> PRESET_NONE ->
  let P := build_preset_mode_lookup (op_modes (device env)) in
  P <> [] ->
  exists self1,
    _available_preset_modes env self = (Return P, self1, [])
    /\ async_set_preset_mode label env self =
       match get (invert P) label with
       | Some code =>
           let plan :=
             (if is_on (state env) then [] else [power true])
             ++ [set_op_mode code] in
           (fst (issue (command_fails env) plan), self1,
            snd (issue (command_fails env) plan))
       | None =>
           (Raise (ValueError ("Invalid preset_mode [" ++ label ++ "]")%string),
            self1, [])
       end.
Proof.
  intros OK N P NE.
  destruct (available_preset_modes_run_full env self OK) as (self1 & Run & _).
  exists self1. split; [exact Run|].
  unfold async_set_preset_mode. erewrite bind_Return by exact Run. fold P.
  destruct P as [|item P'] eqn:EP; [contradiction|]. cbn [truthy negb].
  assert (E : py_eqb label PRESET_NONE = false) by now apply py_eqb_neq.
  rewrite E.
  destruct (get (invert (item :: P')) label) as [code|]; [|reflexivity].
  unfold bind, ask, device_call, async_set_updated, ret.
  destruct (is_on (state env)); cbn;
    repeat match goal with
           | |- context [command_fails env ?c] =>
               destruct (command_fails env c); cbn
           end; reflexivity.
Qed.

(** X11: [set_preset_mode] with a label other than ["none"], on a device
    that has presets.  A label the preset table does not hold raises the
    [ValueError] that names it, with no call on the device; a label it
    holds powers the device on when the snapshot reports it off, then sets
    the preset's operating mode, stopping at the first command that fails
    and marking the coordinator updated when none did. *)
Theorem set_preset_mode_commands (env : Env) (self : Adapter) (label : string) :
  caches_ok (device env) self ->
  label <> PRESET_NONE ->
  let P := build_preset_mode_lookup (op_modes (device env)) in
  P <> [] ->
  exists self1,
    _available_preset_modes env self = (Return P, self1, [])
    /\ async_set_preset_mode label env self =
       match get (invert P) label with
       | Some code =>
           let plan :=
             (if is_on (state env) then [] else [power true])
             ++ [set_op_mode code] in
           (fst (issue (command_fails env) plan), self1,
            snd (issue (command_fails env) plan))
       | None =>
           (Raise (ValueError ("Invalid preset_mode [" ++ label ++ "]")%string),
            self1, [])
       end.
Proof. apply set_preset_mode_commands_run. Qed.

(** X12: preset round trip.  After [set_preset_mode] of a label the
    preset table holds, on a device that accepts the commands, every later
    snapshot that reflects the run makes [hvac_mode] return the HVAC mode of
    that preset and makes the label the active preset. *)
Theorem set_preset_mode_round_trip
    (env : Env) (self : Adapter) (label code : string) :
  caches_ok (device env) self ->
  label <> PRESET_NONE ->
  get (invert (build_preset_mode_lookup (op_modes (device env)))) label
  = Some code ->
  (forall c, command_fails env c = false) ->
  exists self1 evs,
    async_set_preset_mode label env self = (Return tt, self1, evs)
    /\ commands evs
       = (if is_on (state env) then [] else [power true]) ++ [set_op_mode code]
    /\ forall env',
         device env' = device env ->
         reflects evs (state env') ->
         exists entry self',
           get PRESET_MODE_LOOKUP code = Some entry
           /\ preset entry = label
           /\ hvac_mode env' self1 = (Return (hvac entry), self', [])
           /\ preset_mode env' self' = (Return (Some label), self', []).
Proof.
  intros OK N G NoFail.
  set (P := build_preset_mode_lookup (op_modes (device env))) in *.
  assert (NE : P <> []) by (intro F; rewrite F in G; discriminate G).
  destruct (set_preset_mode_commands_run env self label OK N NE)
    as (self1 & Run & Set_).
  fold P in Set_. rewrite G in Set_. cbv zeta in Set_.
  rewrite (issue_no_failure _ _ NoFail) in Set_. cbn [fst snd] in Set_.
  destruct (available_preset_modes_run_full env self OK)
    as (self1' & Run' & OK1 & _).
  rewrite Run in Run'. injection Run' as <-.
  do 2 eexists. split; [exact Set_|]. split.
  - destruct (is_on (state env)); reflexivity.
  - intros env' Edev [On Op].
    assert (Op' : operation_mode (state env') = Some code).
    { destruct (is_on (state env)); exact Op. }
    rewrite <- Edev in OK1.
    assert (GP : get (build_preset_mode_lookup (op_modes (device env'))) code
                 = Some label).
    { rewrite Edev. apply In_get; [apply build_preset_mode_lookup_NoDup|].
      now apply get_invert. }
    destruct (hvac_mode_preset_run env' self1 code label OK1 On Op' GP)
      as (entry & self' & GE & EL & Read & Attr).
    exists entry, self'. repeat split; auto.
    unfold preset_mode, bind, get_self, ret. now rewrite Attr.
Qed.

(** The labels of the preset table are all ["eco"]. *)
Lemma preset_labels S label :
  In label (values (build_preset_mode_lookup S)) -> label = PRESET_ECO.
Proof.
  rewrite build_preset_mode_lookup_cases.
  destruct (list_contains (values (build_hvac_mode_lookup S)) COOL),
    (list_contains S "ENERGY_SAVER"), (list_contains S "ENERGY_SAVING");
    simpl; intuition.
Qed.

(** Stated once more below; this form is the one later proofs use. *)
Lemma clear_preset_mode_commands_run (env : Env) (self : Adapter) :
  reachable (device env) self ->
  let P := build_preset_mode_lookup (op_modes (device env)) in
  P <> [] ->
  exists self1 self',
    _available_preset_modes env self = (Return P, self1, [])
    /\ async_set_preset_mode PRESET_NONE env self =
       if is_not_PRESET_NONE (_attr_preset_mode self1) && is_on (state env)
       then (fst (issue (command_fails env) [set_op_mode "COOL"]), self',
             snd (issue (command_fails env) [set_op_mode "COOL"]))
       else (Return tt, self1, []).
Proof.
  intros R P NE. destruct (reachable_entity_ok_run _ _ R) as [[OK PK] _].
  destruct (available_preset_modes_run_full env self OK)
    as (self1 & Run & OK1 & EP & _ & PK1 & _).
  specialize (PK1 PK). fold P in Run, EP.
  pose proof (presets_need_COOL _ NE) as HC.
  pose proof (fun l => preset_labels (op_modes (device env)) l) as HL.
  fold P in HL.
  cut (exists self',
         async_set_preset_mode PRESET_NONE env self =
         if is_not_PRESET_NONE (_attr_preset_mode self1) && is_on (state env)
         then (fst (issue (command_fails env) [set_op_mode "COOL"]), self',
               snd (issue (command_fails env) [set_op_mode "COOL"]))
         else (Return tt, self1, [])).
  { intros [self' Set_]. exists self1, self'. split; [exact Run | exact Set_]. }
  unfold async_set_preset_mode. erewrite bind_Return by exact Run.
  unfold preset_attr_ok in PK1. rewrite EP in PK1.
  destruct P as [|[code0 label0] P'] eqn:EQ; [contradiction|].
  destruct PK1 as (label & EA & Hl).
  cbn [truthy negb]. change (py_eqb PRESET_NONE PRESET_NONE) with true.
  cbv iota. unfold bind at 1, get_self. unfold bind at 1, ask.
  rewrite EA. cbn [is_not_PRESET_NONE].
  destruct (py_eqb label PRESET_NONE) eqn:EN; cbn [negb andb];
    [exists self1; reflexivity|].
  destruct (is_on (state env)) eqn:On; [|exists self1; reflexivity].
  destruct Hl as [->|Hl]; [discriminate EN|].
  apply HL in Hl. subst label.
  assert (E0 : label0 = PRESET_ECO) by (apply HL; now left).
  subst label0.
  assert (P' = []).
  { pose proof (build_preset_mode_lookup_cases (op_modes (device env))) as C.
    cbv zeta in C. fold P in C. rewrite EQ in C.
    destruct (list_contains
                (values (build_hvac_mode_lookup (op_modes (device env))))
                COOL),
      (list_contains (op_modes (device env)) "ENERGY_SAVER"),
      (list_contains (op_modes (device env)) "ENERGY_SAVING");
      now inversion C. }
  subst P'.
  assert (GE : get PRESET_MODE_LOOKUP code0
               = Some {| preset := PRESET_ECO; hvac := COOL |}).
  { assert (Hin : In (code0, PRESET_ECO) P) by (rewrite EQ; now left).
    apply build_preset_mode_lookup_In in Hin as (_ & entry & GE & EPr & _).
    rewrite GE. f_equal. apply get_In in GE.
    rewrite PRESET_MODE_LOOKUP_items in GE. simpl in GE.
    destruct GE as [[= _ <-]|[[= _ <-]|[]]]; reflexivity. }
  cbn [app]. unfold subscript at 1.
  change (get (invert [(code0, PRESET_ECO)]) PRESET_ECO) with (Some code0).
  cbv iota. unfold bind at 1, ret. cbn [app].
  unfold subscript. rewrite GE. unfold bind at 1, ret. cbn [hvac app].
  rewrite (set_hvac_mode_commands_run env self1
             (with_hvac_mode_lookup self1
                (build_hvac_mode_lookup (op_modes (device env))))
             (build_hvac_mode_lookup (op_modes (device env))) COOL "COOL").
  - rewrite On.
    replace (py_eqb "COOL"%string HVAC_MODE_NONE) with false by reflexivity.
    cbv beta iota zeta. cbn [app]. eexists. reflexivity.
  - discriminate.
  - apply available_hvac_modes_run, OK1.
  - now apply COOL_resolves.
Qed.

(** X13: clearing the preset.  On a reachable entity of a device that
    has presets, [set_preset_mode("none")] does nothing at all when the
    snapshot reports the device off or the active preset is already
    ["none"]; otherwise it sets the COOL operating mode, the HVAC mode of
    the preset, and marks the coordinator updated unless that command
    fails.  It never raises [KeyError] or [ValueError]. *)
Theorem clear_preset_mode_commands (env : Env) (self : Adapter) :
  reachable (device env) self ->
  let P := build_preset_mode_lookup (op_modes (device env)) in
  P <> [] ->
  exists self1 self',
    _available_preset_modes env self = (Return P, self1, [])
    /\ async_set_preset_mode PRESET_NONE env self =
       if is_not_PRESET_NONE (_attr_preset_mode self1) && is_on (state env)
       then (fst (issue (command_fails env) [set_op_mode "COOL"]), self',
             snd (issue (command_fails env) [set_op_mode "COOL"]))
       else (Return tt, self1, []).
Proof. apply clear_preset_mode_commands_run. Qed.

(** X14: [set_preset_mode] accepts exactly the advertised presets.  On
    a reachable entity for which [preset_modes] returns a list, the call
    raises [ValueError] if and only if the label is not in that list, and
    it never raises [KeyError] or [NotImplementedError]. *)
Theorem set_preset_mode_accepts_advertised
    (env : Env) (self self1 : Adapter) (label : string) (labels : list string) :
  reachable (device env) self ->
  preset_modes env self = (Return (Some labels), self1, []) ->
  exists r self2 evs,
    async_set_preset_mode label env self = (r, self2, evs)
    /\ ((exists msg, r = Raise (ValueError msg)) <-> ~ In label labels)
    /\ r <> Raise KeyError
    /\ r <> Raise NotImplementedError.
Proof.
  intros R Modes. pose proof (reachable_entity_ok_run _ _ R) as [[OK PK] _].
  set (P := build_preset_mode_lookup (op_modes (device env))).
  destruct (available_preset_modes_run_full env self OK) as (s1 & Run & _).
  fold P in Run.
  assert (NE : P <> [] /\ labels = PRESET_NONE :: values P).
  { revert Modes. unfold preset_modes. erewrite bind_Return by exact Run.
    destruct P; cbn; [discriminate|]. intros [= <- _]. split; [discriminate|].
    reflexivity. }
  destruct NE as [NE ->].
  destruct (py_eqb label PRESET_NONE) eqn:EN.
  - apply py_eqb_eq in EN. subst label.
    destruct (clear_preset_mode_commands_run env self R NE)
      as (s1' & s2 & _ & Set_).
    rewrite Set_.
    destruct (is_not_PRESET_NONE (_attr_preset_mode s1') && is_on (state env)).
    + do 3 eexists. split; [reflexivity|].
      destruct (issue_outcome (command_fails env) [set_op_mode "COOL"])
        as [E|(c & _ & E)]; rewrite E;
        (split; [split; [intros [msg [=]] | intro N; exfalso; apply N; now left]|]);
        split; discriminate.
    + do 3 eexists. split; [reflexivity|].
      split; [split; [intros [msg [=]] | intro N; exfalso; apply N; now left]|].
      split; discriminate.
  - apply py_eqb_neq in EN.
    destruct (set_preset_mode_commands_run env self label OK EN NE)
      as (s1' & _ & Set_).
    fold P in Set_. rewrite Set_.
    destruct (get (invert P) label) as [code|] eqn:G.
    + assert (Hin : In label (values P)).
      { apply get_invert in G. unfold values.
        change label with (snd (code, label)). now apply in_map. }
      cbv zeta. do 3 eexists. split; [reflexivity|].
      match goal with
      | |- context [issue ?f ?plan] =>
          destruct (issue_outcome f plan) as [E|(c & _ & E)]; rewrite E
      end;
        (split; [split; [intros [msg [=]] | intro N; exfalso; apply N; now right]|]);
        split; discriminate.
    + apply get_invert_None in G. do 3 eexists. split; [reflexivity|].
      split; [split; [|eauto]|split; discriminate].
      intros _ [F|F]; [now apply EN | contradiction].
Qed.

(** *** What is sent to the device *)

Lemma slots_swing_modes dev self v :
  slots_ok dev self ->
  In v (or_empty (_attr_swing_modes self)) ->
  if _use_h_mode self then In v (horizontal_swing_modes dev)
  else In v (vertical_swing_modes dev).
Proof.
  unfold slots_ok, swing_slots, __init__. cbn. intros [= -> -> _].
  destruct (vertical_swing_modes dev), (horizontal_swing_modes dev);
    cbn; tauto.
Qed.

Lemma slots_swing_horizontal_modes dev self v :
  slots_ok dev self ->
  In v (or_empty (_attr_swing_horizontal_modes self)) ->
  In v (horizontal_swing_modes dev).
Proof.
  unfold slots_ok, swing_slots, __init__. cbn. intros [= _ _ ->].
  destruct (vertical_swing_modes dev), (horizontal_swing_modes dev);
    cbn; tauto.
Qed.

Lemma cached_hvac_table dev self l :
  caches_ok dev self ->
  _hvac_mode_lookup self = Some l ->
  l = build_hvac_mode_lookup (op_modes dev).
Proof. intros [[E|E] _] E'; congruence. Qed.

(** X15: the entity never sends the device a mode the device does not
    list.  Whatever is asked of a reachable entity, every operating mode
    it sets is one of the device's [op_modes], every vertical swing mode one
    of its vertical swing modes, and every horizontal swing mode one of its
    horizontal swing modes. *)
Theorem commands_allowed (c : Call) (env : Env) (self : Adapter) :
  reachable (device env) self ->
  post (perform c) env self
    (fun _ _ evs => Forall (cmd_allowed (device env)) (commands evs)).
Proof.
  intro R. destruct (reachable_entity_ok_run _ _ R) as [[OK PK] SK].
  destruct (available_preset_modes_run_full env self OK)
    as (self1 & Run & OK1 & _).
  pose proof (fun l => cached_hvac_table _ _ l OK) as Cached.
  pose proof (fun l => cached_hvac_table _ _ l OK1) as Cached1.
  destruct c; cbn [perform].
  - wp; cbn; constructor.
  - wp; cbn; constructor.
  - wp; cbn; constructor.
  - wp; cbn; constructor.
  - wp; cbn; constructor.
  - wp; cbn; repeat constructor; cbn;
      match goal with
      | G : get (invert ?t) _ = Some ?code |- In ?code _ =>
          try rewrite (Cached _ eq_refl) in G;
          eapply resolved_code_in_S; [exact G|];
          apply py_eqb_neq, negb_true_iff; assumption
      end.
  - unfold async_set_preset_mode. apply post_bind.
    eapply post_of_run; [exact Run|]. cbv beta iota.
    wp; cbn; repeat constructor; cbn.
    all: match goal with
         | G : get (invert (build_preset_mode_lookup _)) _ = Some ?code
           |- In ?code _ =>
             apply get_invert, build_preset_mode_lookup_In in G;
             now destruct G
         | G : get (invert ?t) _ = Some ?code |- In ?code _ =>
             try rewrite (Cached1 _ eq_refl) in G;
             eapply resolved_code_in_S; [exact G|];
             apply py_eqb_neq, negb_true_iff; assumption
         end.
  - wp; cbn; repeat constructor; cbn;
      match goal with
      | L : negb (list_contains _ ?v) = false |- _ =>
          apply negb_false_iff, list_contains_In in L;
          pose proof (slots_swing_modes _ _ _ SK L) as A;
          match goal with U : _use_h_mode _ = _ |- _ => rewrite U in A end;
          exact A
      end.
  - wp; cbn; repeat constructor; cbn;
      match goal with
      | L : negb (list_contains _ ?v) = false |- _ =>
          apply negb_false_iff, list_contains_In in L;
          exact (slots_swing_horizontal_modes _ _ _ SK L)
      end.
  - wp; cbn; repeat constructor.
  - wp; cbn; repeat constructor.
Qed.

(** *** Swing, in terms of the device *)

Lemma slots_of_device dev self :
  slots_ok dev self ->
  swing_slots self =
    match vertical_swing_modes dev, horizontal_swing_modes dev with
    | [], [] => (false, None, None)
    | [], h => (true, Some h, None)
    | v, [] => (false, Some v, None)
    | v, h => (false, Some v, Some h)
    end.
Proof.
  unfold slots_ok. intros ->. unfold swing_slots, __init__.
  destruct (vertical_swing_modes dev), (horizontal_swing_modes dev);
    reflexivity.
Qed.

(** X16: on a reachable entity, [set_swing_mode] works on one axis of
    the device: the vertical one when the device lists vertical swing
    modes, the horizontal one otherwise.  A value outside that axis' list
    raises [ValueError] with no call on the device; the value the snapshot
    reports for that axis is a no-op; any other listed value is sent with
    that axis' command, and the coordinator is marked updated unless the
    command fails. *)
Theorem set_swing_mode_axis (env : Env) (self : Adapter) (v : string) :
  reachable (device env) self ->
  let dev := device env in
  let '(modes, current, cmd) :=
    match vertical_swing_modes dev with
    | [] => (horizontal_swing_modes dev, horizontal_swing_mode (state env),
             set_horizontal_swing_mode v)
    | _ :: _ => (vertical_swing_modes dev, vertical_swing_mode (state env),
                 set_vertical_swing_mode v)
    end in
  async_set_swing_mode v env self =
    if negb (list_contains modes v) then
      (Raise (ValueError ("Invalid swing_mode [" ++ v ++ "].")%string), self, [])
    else if differs v current then
      (fst (issue (command_fails env) [cmd]), self,
       snd (issue (command_fails env) [cmd]))
    else (Return tt, self, []).
Proof.
  intros R dev. subst dev.
  destruct (reachable_entity_ok_run _ _ R) as [_ SK].
  apply slots_of_device in SK. unfold swing_slots in SK.
  unfold async_set_swing_mode, swing_modes, swing_mode,
    bind, get_self, ask, ret, raise, device_call, async_set_updated.
  destruct (vertical_swing_modes (device env)) as [|v0 vs],
    (horizontal_swing_modes (device env)) as [|h0 hs];
    injection SK as E1 E2 _; cbv beta iota zeta; rewrite E2;
    cbn [or_empty]; try solve [cbn; reflexivity];
    match goal with
    | |- context [list_contains ?l v] => destruct (list_contains l v)
    end; cbn; try reflexivity; rewrite E1;
    match goal with
    | |- context [differs v ?c] => destruct (differs v c)
    end; cbn; try reflexivity; rewrite ?E1; cbn;
    match goal with
    | |- context [command_fails env ?c] => destruct (command_fails env c)
    end; reflexivity.
Qed.

(** X17: on a reachable entity of a device that lists no vertical swing
    modes, [set_swing_horizontal_mode] rejects every value: the horizontal
    modes, if any, are served by [set_swing_mode]. *)
Theorem set_swing_horizontal_mode_remapped
    (env : Env) (self : Adapter) (v : string) :
  reachable (device env) self ->
  vertical_swing_modes (device env) = [] ->
  async_set_swing_horizontal_mode v env self
  = (Raise (ValueError ("Invalid horizontal swing_mode [" ++ v ++ "].")%string),
     self, []).
Proof.
  intros R EV. destruct (reachable_entity_ok_run _ _ R) as [_ SK].
  apply slots_of_device in SK. unfold swing_slots in SK. rewrite EV in SK.
  unfold async_set_swing_horizontal_mode, swing_horizontal_modes,
    bind, get_self, ret, raise.
  destruct (horizontal_swing_modes (device env));
    injection SK as _ _ E; cbv beta iota; rewrite E; reflexivity.
Qed.

(** *** The theorems at work on the example devices *)

Import Scenario Scenario2.

Lemma hvac_modes_distinct_witness :
  caches_ok (device eco_env) (__init__ device0)
  /\ exists modes self',
       hvac_modes eco_env (__init__ device0) = (Return (OFF :: modes), self', [])
       /\ modes <> [] /\ NoDup (OFF :: modes).
Proof.
  assert (OK : caches_ok (device eco_env) (__init__ device0))
    by (split; left; reflexivity).
  split; [exact OK | exact (hvac_modes_distinct eco_env (__init__ device0) OK)].
Defined.

Lemma set_hvac_mode_commands_witness :
  let H := [("HEAT"%string, HEAT); ("COOL"%string, COOL)] in
  COOL <> OFF
  /\ get (invert H) COOL = Some "COOL"%string
  /\ async_set_hvac_mode COOL off_env (__init__ device0)
     = (Return tt, with_hvac_mode_lookup (__init__ device0) H,
        [Cmd (power true); Cmd (set_op_mode "COOL"); SetUpdated]).
Proof.
  intro H.
  assert (N : COOL <> OFF) by discriminate.
  assert (G : get (invert H) COOL = Some "COOL"%string) by reflexivity.
  split; [exact N|]. split; [exact G|].
  exact (set_hvac_mode_commands off_env (__init__ device0)
           (with_hvac_mode_lookup (__init__ device0) H) H COOL "COOL"
           N eq_refl G).
Defined.

Lemma hvac_mode_in_range_witness :
  caches_ok (device env3) (__init__ device3)
  /\ exists m self' modes self'',
       hvac_mode env3 (__init__ device3) = (Return m, self', [])
       /\ hvac_modes env3 (__init__ device3) = (Return modes, self'', [])
       /\ (m = AUTO \/ In m modes).
Proof.
  assert (OK : caches_ok (device env3) (__init__ device3))
    by (split; left; reflexivity).
  split; [exact OK | exact (hvac_mode_in_range env3 (__init__ device3) OK)].
Defined.

Lemma hvac_mode_preset_witness :
  caches_ok (device eco_env) (__init__ device0)
  /\ is_on (state eco_env) = true
  /\ operation_mode (state eco_env) = Some "ENERGY_SAVER"%string
  /\ exists self',
       hvac_mode eco_env (__init__ device0) = (Return COOL, self', [])
       /\ _attr_preset_mode self' = Some PRESET_ECO.
Proof.
  assert (OK : caches_ok (device eco_env) (__init__ device0))
    by (split; left; reflexivity).
  split; [exact OK|]. split; [reflexivity|]. split; [reflexivity|].
  destruct (hvac_mode_preset eco_env (__init__ device0) "ENERGY_SAVER"
              PRESET_ECO OK eq_refl eq_refl eq_refl)
    as (entry & self' & GE & _ & Read & Attr).
  injection GE as <-. exists self'. split; [exact Read | exact Attr].
Defined.

Lemma preset_modes_offered_witness :
  caches_ok (device eco_env) (__init__ device0)
  /\ exists r self',
       preset_modes eco_env (__init__ device0) = (Return r, self', [])
       /\ (r = None \/ r = Some [PRESET_NONE; PRESET_ECO]).
Proof.
  assert (OK : caches_ok (device eco_env) (__init__ device0))
    by (split; left; reflexivity).
  split; [exact OK|].
  destruct (preset_modes_offered eco_env (__init__ device0) OK)
    as (r & self' & Run & Cases & _).
  exists r, self'. split; [exact Run | exact Cases].
Defined.

Lemma eco_entity_reachable : reachable device0 eco_entity.
Proof. apply reachable_step; [apply reachable_init | reflexivity]. Defined.

Lemma reachable_entity_ok_witness :
  reachable device0 eco_entity
  /\ entity_ok device0 eco_entity /\ slots_ok device0 eco_entity.
Proof.
  split; [exact eco_entity_reachable|].
  exact (reachable_entity_ok device0 eco_entity eco_entity_reachable).
Defined.

Lemma preset_mode_advertised_witness :
  reachable (device eco_env) eco_entity
  /\ preset_modes eco_env eco_entity
     = (Return (Some [PRESET_NONE; PRESET_ECO]), eco_entity, [])
  /\ preset_mode eco_env eco_entity
     = (Return (Some PRESET_ECO), eco_entity, []).
Proof.
  split; [exact eco_entity_reachable|].
  destruct (preset_mode_advertised eco_env eco_entity eco_entity_reachable)
    as (r & self' & Run & Active).
  injection Run as <- <-. destruct Active as (p & Read & _).
  split; [reflexivity|]. injection Read as <-. reflexivity.
Defined.

Lemma set_preset_mode_commands_witness :
  caches_ok (device off_env) (__init__ device0)
  /\ PRESET_ECO <> PRESET_NONE
  /\ build_preset_mode_lookup (op_modes (device off_env)) <> []
  /\ exists self1,
       async_set_preset_mode PRESET_ECO off_env (__init__ device0)
       = (Return tt, self1,
          [Cmd (power true); Cmd (set_op_mode "ENERGY_SAVER"); SetUpdated]).
Proof.
  assert (OK : caches_ok (device off_env) (__init__ device0))
    by (split; left; reflexivity).
  assert (N : PRESET_ECO <> PRESET_NONE) by discriminate.
  assert (NE : build_preset_mode_lookup (op_modes (device off_env)) <> [])
    by discriminate.
  split; [exact OK|]. split; [exact N|]. split; [exact NE|].
  destruct (set_preset_mode_commands off_env (__init__ device0) PRESET_ECO
              OK N NE) as (self1 & _ & Set_).
  exists self1. exact Set_.
Defined.

Lemma set_preset_mode_round_trip_witness :
  caches_ok (device off_env) (__init__ device0)
  /\ exists self1 evs self',
       async_set_preset_mode PRESET_ECO off_env (__init__ device0)
       = (Return tt, self1, evs)
       /\ hvac_mode eco_env self1 = (Return COOL, self', [])
       /\ preset_mode eco_env self' = (Return (Some PRESET_ECO), self', []).
Proof.
  assert (OK : caches_ok (device off_env) (__init__ device0))
    by (split; left; reflexivity).
  split; [exact OK|].
  destruct (set_preset_mode_round_trip off_env (__init__ device0)
              PRESET_ECO "ENERGY_SAVER" OK)
    as (self1 & evs & Set_ & Cmds & Read).
  - discriminate.
  - reflexivity.
  - intro c. reflexivity.
  - destruct (Read eco_env) as (entry & self' & GE & _ & R & A).
    + reflexivity.
    + pose proof Set_ as S. vm_compute in S. injection S as _ <-.
      split; reflexivity.
    + injection GE as <-. exists self1, evs, self'. auto.
Defined.

Lemma clear_preset_mode_commands_witness :
  reachable (device eco_env) eco_entity
  /\ build_preset_mode_lookup (op_modes (device eco_env)) <> []
  /\ exists self',
       async_set_preset_mode PRESET_NONE eco_env eco_entity
       = (Return tt, self', [Cmd (set_op_mode "COOL"); SetUpdated]).
Proof.
  assert (NE : build_preset_mode_lookup (op_modes (device eco_env)) <> [])
    by discriminate.
  split; [exact eco_entity_reachable|]. split; [exact NE|].
  destruct (clear_preset_mode_commands eco_env eco_entity
              eco_entity_reachable NE) as (self1 & self' & Run & Set_).
  injection Run as <-. exists self'. exact Set_.
Defined.

Lemma set_preset_mode_accepts_advertised_witness :
  reachable (device eco_env) eco_entity
  /\ preset_modes eco_env eco_entity
     = (Return (Some [PRESET_NONE; PRESET_ECO]), eco_entity, [])
  /\ exists r self2 evs,
       async_set_preset_mode "boost" eco_env eco_entity = (r, self2, evs)
       /\ exists msg, r = Raise (ValueError msg).
Proof.
  assert (Modes : preset_modes eco_env eco_entity
                  = (Return (Some [PRESET_NONE; PRESET_ECO]), eco_entity, []))
    by reflexivity.
  split; [exact eco_entity_reachable|]. split; [exact Modes|].
  destruct (set_preset_mode_accepts_advertised eco_env eco_entity eco_entity
              "boost" [PRESET_NONE; PRESET_ECO] eco_entity_reachable Modes)
    as (r & self2 & evs & Run & Iff & _).
  exists r, self2, evs. split; [exact Run|].
  apply Iff. simpl. intros [F|[F|[]]]; discriminate F.
Defined.

Lemma commands_allowed_witness :
  reachable (device eco_env) eco_entity
  /\ Forall (cmd_allowed device0)
       (commands (snd (async_set_preset_mode PRESET_NONE eco_env eco_entity))).
Proof.
  split; [exact eco_entity_reachable|].
  exact (commands_allowed (set_preset_mode PRESET_NONE) eco_env eco_entity
           eco_entity_reachable).
Defined.

Lemma set_swing_mode_axis_witness :
  reachable (device eco_env) eco_entity
  /\ async_set_swing_mode "RIGHT" eco_env eco_entity
     = (Return tt, eco_entity,
        [Cmd (set_horizontal_swing_mode "RIGHT"); SetUpdated]).
Proof.
  split; [exact eco_entity_reachable|].
  exact (set_swing_mode_axis eco_env eco_entity "RIGHT" eco_entity_reachable).
Defined.

Lemma set_swing_horizontal_mode_remapped_witness :
  reachable (device eco_env) eco_entity
  /\ vertical_swing_modes (device eco_env) = []
  /\ async_set_swing_horizontal_mode "LEFT" eco_env eco_entity
     = (Raise (ValueError "Invalid horizontal swing_mode [LEFT]."),
        eco_entity, []).
Proof.
  split; [exact eco_entity_reachable|]. split; [reflexivity|].
  exact (set_swing_horizontal_mode_remapped eco_env eco_entity "LEFT"
           eco_entity_reachable eq_refl).
Defined.

End ACMoreFacts.

(** ** Temperature, fan and features *)

Module ACFullFacts.
Import PyDict PyDictFacts AC ACFacts ACMore ACMoreFacts ACFull.
Local Open Scope list_scope.

Section Temperature.
Variable Temp : Type.
Implicit Types (xe : XEnv Temp) (xs : XAdapter).

Lemma more_commands_app (a b : list (XEvent Temp)) :
  more_commands (a ++ b) = more_commands a ++ more_commands b.
Proof.
  induction a as [|[e|c] a IH]; simpl; [reflexivity | exact IH |].
  now rewrite IH.
Qed.

Lemma updates_app (a b : list (XEvent Temp)) :
  updates (a ++ b) = updates a + updates b.
Proof.
  induction a as [|[[c|]|c] a IH]; simpl; auto.
Qed.

(** How often a run of [set_hvac_mode] marks the coordinator updated:
    once when it returns, never when it raises. *)
Lemma set_hvac_mode_updates m env self :
  post (async_set_hvac_mode m) env self
    (fun r _ evs =>
       updates (Temp := Temp) (map Base evs)
       = match r with Return _ => 1 | Raise _ => 0 end
       /\ more_commands (Temp := Temp) (map Base evs) = []).
Proof. wp; cbn; auto. Qed.

(** X18: [set_temperature] with the HVAC mode [OFF] only turns the
    device off: whatever temperature comes with it is not sent. *)
Theorem set_temperature_off xe xs (temperature : option Temp) :
  async_set_temperature (Some OFF) temperature xe xs
  = lift (async_set_hvac_mode OFF) xe xs
  /\ more_commands
       (snd (async_set_temperature (Some OFF) temperature xe xs)) = [].
Proof.
  assert (E : async_set_temperature (Some OFF) temperature xe xs
              = lift (async_set_hvac_mode OFF) xe xs).
  { unfold async_set_temperature, xbind, lift, xret.
    destruct (async_set_hvac_mode OFF (base_env xe) (base xs))
      as [[[[]|e] s] evs]; cbn; [|reflexivity].
    now rewrite app_nil_r. }
  split; [exact E|]. rewrite E. unfold lift.
  pose proof (set_hvac_mode_updates OFF (base_env xe) (base xs)) as U.
  unfold post in U.
  destruct (async_set_hvac_mode OFF (base_env xe) (base xs)) as [[r s] evs].
  apply U.
Qed.


(** X20: how often [set_temperature] marks the coordinator updated.  A
    call that returns has marked it once for the HVAC mode, if one was
    given, and once more for the temperature, if one was given and the mode
    was not [OFF].  A call that raises has marked it at most once, and
    exactly when the mode change had gone through before the temperature
    command failed. *)
Theorem set_temperature_updates
    xe xs (hvac_mode : option HVACMode) (temperature : option Temp) :
  let '(r, _, evs) := async_set_temperature hvac_mode temperature xe xs in
  match r with
  | XReturn _ =>
      updates evs
      = (match hvac_mode with Some _ => 1 | None => 0 end)
        + (match temperature, hvac_mode with
           | Some _, Some OFF | None, _ => 0
           | Some _, _ => 1
           end)
  | XRaise _ =>
      updates evs <= 1
      /\ (updates evs = 1 <->
          exists mode,
            hvac_mode = Some mode
            /\ fst (fst (async_set_hvac_mode mode (base_env xe) (base xs)))
               = Return tt)
  end.
Proof.
  unfold async_set_temperature.
  destruct hvac_mode as [mode|].
  - pose proof (set_hvac_mode_updates mode (base_env xe) (base xs)) as U.
    unfold post in U. unfold xbind, lift.
    destruct (async_set_hvac_mode mode (base_env xe) (base xs))
      as [[[[]|e] s] evs] eqn:Run; destruct U as [U _]; cbn [fst snd].
    + destruct (py_eqb mode OFF) eqn:E.
      * apply py_eqb_eq in E. subst mode. cbn.
        rewrite app_nil_r, U. now destruct temperature.
      * assert (NOff : mode <> OFF) by now apply py_eqb_neq.
        destruct temperature as [value|].
        -- unfold more_call, async_set_updated.
           destruct (more_fails xe (set_target_temp value)); cbn;
             rewrite updates_app, U; cbn.
           ++ split; [lia|]. split; [intros _|reflexivity].
              exists mode. now rewrite Run.
           ++ now destruct mode.
        -- cbn. rewrite app_nil_r, U. now destruct mode.
    + rewrite U. split; [lia|]. split; [discriminate|].
      intros (mode' & [= <-] & F). rewrite Run in F. discriminate F.
  - destruct temperature as [value|]; [|reflexivity].
    unfold more_call, xbind, lift, async_set_updated.
    destruct (more_fails xe (set_target_temp value)); cbn; [|reflexivity].
    split; [lia|]. split; [discriminate|]. now intros (mode' & [=] & _).
Qed.

(** X21: [set_fan_mode] raises the [ValueError] that names the value
    when it is not one of the entity's fan modes, with no call on the
    device.  Otherwise it sends the fan speed, whatever speed the snapshot
    reports (setting the current speed again is not skipped), and marks the
    coordinator updated unless the command fails. *)
Theorem set_fan_mode_commands xe xs (mode : string) :
  async_set_fan_mode mode xe xs =
    if list_contains (_attr_fan_modes xs) mode then
      if more_fails xe (set_fan_speed mode)
      then (XRaise (MoreDeviceError (set_fan_speed mode)), xs,
            [More (set_fan_speed mode)])
      else (XReturn tt, xs, [More (set_fan_speed mode); Base SetUpdated])
    else
      (XRaise (Of (ValueError ("Invalid fan mode [" ++ mode ++ "]")%string)),
       xs, []).
Proof.
  unfold async_set_fan_mode, xbind, fan_modes, more_call, lift,
    async_set_updated, xraise.
  destruct (list_contains (_attr_fan_modes xs) mode); cbn; [|reflexivity].
  destruct (more_fails xe (set_fan_speed mode)); cbn; [reflexivity|].
  now destruct xs.
Qed.

(** X22: the features of a reachable entity.  [supported_features]
    always has the target-temperature, turn-off and turn-on flags; the
    fan flag exactly when the entity has fan modes; the preset flag exactly
    when the device has the COOL operating mode and an energy-saving one;
    the swing flag exactly when the device lists swing modes on some axis;
    the horizontal-swing flag exactly when it lists them on both axes; and
    no other flag. *)
Theorem supported_features_flags xe xs :
  reachable (device (base_env xe)) (base xs) ->
  let dev := device (base_env xe) in
  exists features xs',
    supported_features xe xs = (XReturn features, xs', [])
    /\ has_flag features DEFAULT_AC_FEATURES = true
    /\ (has_flag features FAN_MODE = true <-> _attr_fan_modes xs <> [])
    /\ (has_flag features PRESET_MODE = true <->
        In "COOL"%string (op_modes dev)
        /\ (In "ENERGY_SAVER"%string (op_modes dev)
            \/ In "ENERGY_SAVING"%string (op_modes dev)))
    /\ (has_flag features SWING_MODE = true <->
        vertical_swing_modes dev <> [] \/ horizontal_swing_modes dev <> [])
    /\ (has_flag features SWING_HORIZONTAL_MODE = true <->
        vertical_swing_modes dev <> [] /\ horizontal_swing_modes dev <> [])
    /\ Z.land features
         (Z.lor TARGET_TEMPERATURE_RANGE (Z.lor TARGET_HUMIDITY AUX_HEAT))
       = 0%Z.
Proof.
  intros R dev.
  destruct (reachable_entity_ok_run _ _ R) as [[OK PK] SK].
  destruct (available_preset_modes_run_full _ _ OK)
    as (self1 & Run & _ & _ & ES & _).
  apply slots_of_device in SK. rewrite <- ES in SK. fold dev in SK.
  unfold swing_slots in SK.
  unfold supported_features, xbind, fan_modes, lift, xret,
    preset_modes, swing_modes, swing_horizontal_modes.
  erewrite (bind_Return _ _ _ _ _ _ _ Run). fold dev.
  rewrite build_preset_mode_lookup_cases.
  unfold bind, get_self, ret.
  destruct (list_contains (values (build_hvac_mode_lookup (op_modes dev))) COOL)
    eqn:EC,
    (list_contains (op_modes dev) "ENERGY_SAVER") eqn:E1,
    (list_contains (op_modes dev) "ENERGY_SAVING") eqn:Eg,
    (_attr_fan_modes xs) as [|f0 fs],
    (vertical_swing_modes dev) as [|v0 vs],
    (horizontal_swing_modes dev) as [|h0 hs];
    injection SK as _ E2 E3; cbn; rewrite E2, E3; cbn;
    do 2 eexists; (split; [reflexivity|]);
    rewrite <- (COOL_in_table (op_modes dev)), <- !list_contains_In,
      EC, E1, Eg;
    repeat split; intros; try reflexivity; try discriminate;
    try tauto; try (intuition discriminate); try (intuition congruence).
Qed.

End Temperature.

Import Scenario Scenario2.

Lemma supported_features_flags_witness :
  reachable (device (base_env xenv0)) (base xentity0)
  /\ exists xs',
       supported_features xenv0 xentity0
       = (XReturn (Z.lor DEFAULT_AC_FEATURES
                     (Z.lor FAN_MODE (Z.lor PRESET_MODE SWING_MODE))),
          xs', []).
Proof.
  assert (R : reachable (device (base_env xenv0)) (base xentity0))
    by apply reachable_init.
  split; [exact R|].
  destruct (supported_features_flags Z xenv0 xentity0 R)
    as (features & xs' & Run & _).
  exists xs'. pose proof Run as E. vm_compute in E. injection E as <- _.
  exact Run.
Defined.

End ACFullFacts.

(** ** Setting the platform up *)

Module SetupFacts.
Import Setup.

(** *** [remove_prefix] *)

Lemma prefix_append (p s : string) : String.prefix p (p ++ s) = true.
Proof.
  induction p as [|c p IH]; simpl; [now destruct s|].
  destruct (ascii_dec c c); [exact IH | contradiction].
Qed.

Lemma slice_from_append (p s : string) :
  slice_from (String.length p) (p ++ s) = s.
Proof. induction p as [|c p IH]; simpl; [reflexivity | exact IH]. Qed.

Lemma prefix_split (p t : string) :
  String.prefix p t = true ->
  (p ++ slice_from (String.length p) t)%string = t.
Proof.
  revert t. induction p as [|c p IH]; intros t; [reflexivity|].
  destruct t as [|d t]; simpl; [discriminate|].
  destruct (ascii_dec c d) as [->|]; [|discriminate].
  intro E. now rewrite IH.
Qed.

(** X23: [remove_prefix] takes the prefix off once: from [prefix ++ rest]
    it leaves [rest].  In general the text is the result with the prefix
    put back when the text starts with it, and is returned unchanged when
    it does not. *)
Theorem remove_prefix_spec (text prefix rest : string) :
  remove_prefix (prefix ++ rest) prefix = rest
  /\ text = ((if String.prefix prefix text then prefix else "")
             ++ remove_prefix text prefix)%string.
Proof.
  unfold remove_prefix. split.
  - now rewrite prefix_append, slice_from_append.
  - destruct (String.prefix prefix text) eqn:E; [|reflexivity].
    symmetry. now apply prefix_split.
Qed.

(** *** Discovery *)

Lemma list_ascii_of_append (a b : string) :
  list_ascii_of_string (a ++ b)
  = (list_ascii_of_string a ++ list_ascii_of_string b)%list.
Proof. induction a as [|c a IH]; simpl; [reflexivity | now rewrite IH]. Qed.

Lemma list_ascii_inj (a b : string) :
  list_ascii_of_string a = list_ascii_of_string b -> a = b.
Proof.
  intro E. rewrite <- (string_of_list_ascii_of_string a),
    <- (string_of_list_ascii_of_string b). now rewrite E.
Qed.

Lemma append_inj_r (s x y : string) : (x ++ s = y ++ s)%string -> x = y.
Proof.
  intro E. apply (f_equal list_ascii_of_string) in E.
  rewrite !list_ascii_of_append in E. apply app_inv_tail in E.
  now apply list_ascii_inj.
Qed.

Lemma append_assoc (a b c : string) :
  ((a ++ b) ++ c = a ++ (b ++ c))%string.
Proof. induction a as [|x a IH]; simpl; [reflexivity | now rewrite IH]. Qed.

(** A fridge entity and a freezer entity never share their unique id. *)
Lemma fridge_freezer_ids (x y : string) :
  (x ++ "-fridge-AC" <> y ++ "-freezer-AC")%string.
Proof.
  intro E. apply (f_equal list_ascii_of_string) in E.
  rewrite !list_ascii_of_append in E.
  apply (f_equal (@rev ascii)) in E. rewrite !rev_app_distr in E.
  simpl in E. discriminate E.
Qed.

Lemma NoDup_map_inj {A B} (f : A -> B) (l : list A) :
  (forall x y, In x l -> In y l -> f x = f y -> x = y) ->
  NoDup l -> NoDup (map f l).
Proof.
  intros Inj ND. induction ND as [|a l Ha ND IH]; simpl; constructor.
  - intro F. apply in_map_iff in F as (b & E & Hb).
    assert (b = a) by (apply Inj; simpl; auto). now subst b.
  - apply IH. intros x y Hx Hy. apply Inj; simpl; auto.
Qed.

Section Discovery.
Variable LGEDevice : Type.
Variable unique_id : LGEDevice -> string.
Local Open Scope list_scope.

(** Stated once more below; this form is the one later proofs use. *)
Lemma discover_entities_run
    (lge_devices : option (list (DeviceType * list LGEDevice))) :
  match lge_devices with
  | None | Some [] => _async_discover_device lge_devices = None
  | Some devices =>
      let acs := PyDict.get_default devices AC [] in
      let refs := PyDict.get_default devices REFRIGERATOR [] in
      exists entities,
        _async_discover_device lge_devices = Some entities
        /\ entities
           = map LGEACClimate acs
             ++ map (fun d => LGERefrigeratorClimate d ATTR_FRIDGE) refs
             ++ map (fun d => LGERefrigeratorClimate d ATTR_FREEZER) refs
        /\ length entities = length acs + 2 * length refs
  end.
Proof.
  destruct lge_devices as [[|item devices]|]; try reflexivity.
  cbv zeta. eexists. split; [reflexivity|]. cbn [flat_map REFRIGERATOR_CLIMATE_keys].
  rewrite app_nil_r. split; [reflexivity|].
  rewrite !length_app, !length_map. lia.
Qed.

(** X24: what discovery creates.  Without devices nothing is added.
    Otherwise one entity is created per air conditioner, then a fridge
    entity per refrigerator, then a freezer entity per refrigerator: as
    many entities as air conditioners plus twice the refrigerators. *)
Theorem discover_entities
    (lge_devices : option (list (DeviceType * list LGEDevice))) :
  match lge_devices with
  | None | Some [] => _async_discover_device lge_devices = None
  | Some devices =>
      let acs := PyDict.get_default devices AC [] in
      let refs := PyDict.get_default devices REFRIGERATOR [] in
      exists entities,
        _async_discover_device lge_devices = Some entities
        /\ entities
           = map LGEACClimate acs
             ++ map (fun d => LGERefrigeratorClimate d ATTR_FRIDGE) refs
             ++ map (fun d => LGERefrigeratorClimate d ATTR_FREEZER) refs
        /\ length entities = length acs + 2 * length refs
  end.
Proof. apply discover_entities_run. Qed.

(** X25: the unique ids of the entities discovery creates are pairwise
    distinct, provided the air conditioners have distinct unique ids, the
    refrigerators have distinct unique ids, and no air conditioner's id is
    a refrigerator's id followed by ["-fridge"] or ["-freezer"]. *)
Theorem discovered_unique_ids
    (devices : list (DeviceType * list LGEDevice)) (entities : list (Entity LGEDevice)) :
  let acs := PyDict.get_default devices AC [] in
  let refs := PyDict.get_default devices REFRIGERATOR [] in
  _async_discover_device (Some devices) = Some entities ->
  NoDup (map unique_id acs) ->
  NoDup (map unique_id refs) ->
  (forall a r, In a acs -> In r refs ->
     unique_id a <> (unique_id r ++ "-fridge")%string
     /\ unique_id a <> (unique_id r ++ "-freezer")%string) ->
  NoDup (map (_attr_unique_id unique_id) entities).
Proof.
  intros acs refs Disc NA NR Cross.
  pose proof (discover_entities_run (Some devices)) as D.
  destruct devices as [|item devices]; [discriminate Disc|].
  destruct D as (entities' & Disc' & -> & _).
  rewrite Disc in Disc'. injection Disc' as ->.
  fold acs refs. rewrite !map_app, !map_map. cbn [_attr_unique_id].
  assert (Suffix : forall (s : string) (l : list LGEDevice),
             NoDup (map unique_id l) ->
             NoDup (map (fun d => (unique_id d ++ s)%string) l)).
  { intros s l ND. rewrite <- (map_map unique_id (fun u => (u ++ s)%string)).
    apply NoDup_map_inj; [|exact ND].
    intros x y _ _ E. now apply append_inj_r in E. }
  apply NoDup_app; [now apply Suffix| |].
  - apply NoDup_app; [now apply Suffix | now apply Suffix |].
    intros u Hu Hv.
    apply in_map_iff in Hu as (r1 & <- & _).
    apply in_map_iff in Hv as (r2 & E & _).
    symmetry in E. now apply fridge_freezer_ids in E.
  - intros u Hu Hv.
    apply in_map_iff in Hu as (a & <- & Ha).
    apply in_app_or in Hv as [Hv|Hv];
      apply in_map_iff in Hv as (r & E & Hr);
      destruct (Cross a r Ha Hr) as [C1 C2].
    + apply C1. apply (append_inj_r "-AC"). rewrite <- E.
      now rewrite append_assoc.
    + apply C2. apply (append_inj_r "-AC"). rewrite <- E.
      now rewrite append_assoc.
Qed.

End Discovery.

Import Scenario2.

Lemma discovered_unique_ids_witness :
  let ids :=
    [ "ac-1-AC"; "ref-1-fridge-AC"; "ref-2-fridge-AC";
      "ref-1-freezer-AC"; "ref-2-freezer-AC" ]%string in
  NoDup (map (fun id : string => id) (PyDict.get_default found AC []))
  /\ NoDup (map (fun id : string => id)
              (PyDict.get_default found REFRIGERATOR []))
  /\ option_map (map (_attr_unique_id (fun id => id)))
       (_async_discover_device (Some found)) = Some ids
  /\ NoDup ids.
Proof.
  intro ids.
  assert (NA : NoDup (map (fun id : string => id)
                        (PyDict.get_default found AC [])))
    by (repeat constructor; simpl; intuition discriminate).
  assert (NR : NoDup (map (fun id : string => id)
                        (PyDict.get_default found REFRIGERATOR [])))
    by (repeat constructor; simpl; intuition discriminate).
  split; [exact NA|]. split; [exact NR|]. split; [reflexivity|].
  refine (discovered_unique_ids string (fun id => id) found _ eq_refl NA NR _).
  simpl. intros a r [<-|[]] [<-|[<-|[]]]; split; discriminate.
Defined.

End SetupFacts.
